(** * Device control panel: the schema, its row-level policies, the
    dashboard and the desktop client, embedded in Rocq.

    Sources embedded here:
    - [supabase/migrations/20251019000741_create_control_panel_schema.sql]:
      the four tables, their constraints and the row-level security
      policies;
    - [src/lib/supabase.ts]: the Row / Insert / Update shapes of the tables;
    - the dashboard components ([Dashboard], [AddDeviceModal],
      [EditDeviceModal], [Teams], [CreateTeamModal], [ManageTeamModal]);
    - the desktop client of [INTEGRATION_GUIDE.md] ([pollCommands],
      [executeCommand]);
    - [src/config.ts]: the numeric settings ([defaultPort],
      [POLL_INTERVAL]).

    A table is a finite map from its primary key [id] to the remaining
    columns.  A statement takes the database role it runs under and returns
    the new database together with the error the client library hands back
    ([const { error } = await supabase...]).  Before a statement of a
    signed-in session runs, the policies of the tables it touches are
    added to it, and so are the SELECT policies of the tables their
    sub-queries name; the SELECT policy on [team_members] queries
    [team_members], and a statement whose policies reach it is refused
    (42P17).  Table [auth.users] belongs to the hosting service and is not
    modelled; every user id is taken to exist there.  A statement is
    atomic; the statements of one poll cycle of a desktop client follow
    each other with nothing in between: sessions that interleave inside a
    poll cycle, and poll cycles that overlap, are not modelled. *)

From Stdlib Require Import Ascii QArith DecimalString DecimalZ.
From stdpp Require Import gmap strings list sorting fin_maps.

Open Scope Z_scope.

(** ** Column types *)

Abbreviation uuid := nat (only parsing).
Abbreviation timestamptz := Z (only parsing).

(** [role text CHECK (role IN ('admin', 'member'))] *)
Inductive member_role := admin | member.

(** [status text CHECK (status IN ('online', 'offline', 'unknown'))] *)
Inductive device_status := online | offline | unknown.

(** [command_type text CHECK (command_type IN ('unmute_zoom', 'next_track'))] *)
Inductive command_kind := unmute_zoom | next_track.

(** [status text CHECK (status IN ('pending', 'delivered', 'executed', 'failed'))] *)
Inductive command_status := pending | delivered | executed | failed.

#[global] Instance member_role_eq_dec : EqDecision member_role.
Proof. solve_decision. Defined.
#[global] Instance device_status_eq_dec : EqDecision device_status.
Proof. solve_decision. Defined.
#[global] Instance command_kind_eq_dec : EqDecision command_kind.
Proof. solve_decision. Defined.
#[global] Instance command_status_eq_dec : EqDecision command_status.
Proof. solve_decision. Defined.

(** ** Rows (the [Row] shapes of [lib/supabase.ts], without the key) *)

Module team.
Record t := mk {
  name : string;
  created_by : uuid;
  created_at : timestamptz;
}.
End team.

Module team_member.
Record t := mk {
  team_id : uuid;
  user_id : uuid;
  role : member_role;
  joined_at : timestamptz;
}.
End team_member.

Module device.
Record t := mk {
  name : string;
  ip_address : string;
  port : Z;
  owner_id : uuid;
  team_id : option uuid;
  status : device_status;
  last_seen : option timestamptz;
  created_at : timestamptz;
}.

(** The [Insert] shape: the optional columns take their DEFAULT when
    absent.  [port] is a JavaScript number: [None] stands for [NaN],
    which is sent as JSON [null]. *)
Record Insert := mkInsert {
  i_id : option uuid;
  i_name : string;
  i_ip_address : string;
  i_port : option Z;
  i_owner_id : uuid;
  i_team_id : option uuid;
  i_status : option device_status;
  i_last_seen : option timestamptz;
  i_created_at : option timestamptz;
}.

(** The [Update] shape: every column optional; [u_team_id] and
    [u_last_seen] may be set to [null], and so may [u_port] when
    [parseInt] yields [NaN].  The key is not updated by any code of the
    repository and is left out. *)
Record Update := mkUpdate {
  u_name : option string;
  u_ip_address : option string;
  u_port : option (option Z);
  u_owner_id : option uuid;
  u_team_id : option (option uuid);
  u_status : option device_status;
  u_last_seen : option (option timestamptz);
  u_created_at : option timestamptz;
}.

Definition no_update : Update :=
  mkUpdate None None None None None None None None.
End device.

Module command.
Record t := mk {
  device_id : uuid;
  command_type : command_kind;
  payload : string;
  status : command_status;
  sent_by : uuid;
  sent_at : timestamptz;
  executed_at : option timestamptz;
}.

Record Insert := mkInsert {
  i_id : option uuid;
  i_device_id : uuid;
  i_command_type : command_kind;
  i_payload : option string;
  i_status : option command_status;
  i_sent_by : uuid;
  i_sent_at : option timestamptz;
  i_executed_at : option timestamptz;
}.

Record Update := mkUpdate {
  u_device_id : option uuid;
  u_command_type : option command_kind;
  u_payload : option string;
  u_status : option command_status;
  u_sent_by : option uuid;
  u_sent_at : option timestamptz;
  u_executed_at : option (option timestamptz);
}.

Definition no_update : Update :=
  mkUpdate None None None None None None None.
End command.

#[global] Instance device_eq_dec : EqDecision device.t.
Proof. solve_decision. Defined.
#[global] Instance command_eq_dec : EqDecision command.t.
Proof. solve_decision. Defined.

(** ** The database *)

Record db := mkDb {
  teams : gmap uuid team.t;
  team_members : gmap uuid team_member.t;
  devices : gmap uuid device.t;
  commands : gmap uuid command.t;
}.

Definition empty_db : db := mkDb ∅ ∅ ∅ ∅.

Definition set_teams (x : gmap uuid team.t) (d : db) : db :=
  mkDb x (team_members d) (devices d) (commands d).
Definition set_team_members (x : gmap uuid team_member.t) (d : db) : db :=
  mkDb (teams d) x (devices d) (commands d).
Definition set_devices (x : gmap uuid device.t) (d : db) : db :=
  mkDb (teams d) (team_members d) x (commands d).
Definition set_commands (x : gmap uuid command.t) (d : db) : db :=
  mkDb (teams d) (team_members d) (devices d) x.

(** The role a statement runs under.  The dashboard uses the anon key and
    the session of the signed-in user; the desktop client uses the service
    role key, which bypasses row-level security.  All policies are
    [TO authenticated]. *)
Inductive pg_role := service_role | authenticated (uid : uuid) | anon.

(** What the data store reports when it rejects a statement (SQLSTATE and
    the table, column or constraint concerned). *)
Inductive pg_error :=
  | insufficient_privilege (table : string)   (* 42501, row-level security *)
  | not_null_violation (column : string)      (* 23502 *)
  | check_violation (constraint : string)     (* 23514 *)
  | unique_violation (constraint : string)    (* 23505 *)
  | foreign_key_violation (constraint : string) (* 23503 *)
  | data_exception (type : string)            (* class 22: 22003, 22P02 *)
  | invalid_object_definition (relation : string)
      (* 42P17, infinite recursion detected in policy for relation *)
  | undefined_table (relation : string).      (* 42P01, PGRST205 *)

#[global] Instance pg_error_eq_dec : EqDecision pg_error.
Proof. solve_decision. Defined.

(** A rejected statement leaves the database as it was. *)
Abbreviation response := (db * option pg_error)%type.

(** What a statement draws from its environment: the value of
    [gen_random_uuid()] and of [now()]. *)
Record env := mkEnv { gen_random_uuid : uuid; now : timestamptz }.

(** ** Row-level security policies

    Each policy is the boolean its USING / WITH CHECK expression evaluates
    to for [auth.uid() = uid]; the definitions carry the policies' names.
    A sub-query is evaluated over the table it names; see [policy_expansion]
    for the statements that get as far as evaluating a policy. *)

(** [EXISTS (SELECT 1 FROM team_members WHERE team_members.team_id = t
    AND team_members.user_id = auth.uid())] *)
Definition has_membership (d : db) (t uid : uuid) : bool :=
  bool_decide (map_Exists
    (λ _ m, team_member.team_id m = t ∧ team_member.user_id m = uid)
    (team_members d)).

(** [EXISTS (SELECT 1 FROM teams WHERE teams.id = t
    AND teams.created_by = auth.uid())] *)
Definition team_created_by (d : db) (t uid : uuid) : bool :=
  match teams d !! t with
  | Some tm => bool_decide (team.created_by tm = uid)
  | None => false
  end.

Section policies.
Variable uid : uuid.
Variable d : db.

(** *** teams *)

Definition users_can_view_teams_they_are_members_of (id : uuid) (r : team.t) : bool :=
  bool_decide (team.created_by r = uid) || has_membership d id uid.

Definition users_can_create_teams (r : team.t) : bool :=
  bool_decide (team.created_by r = uid).

(** [USING (created_by = auth.uid()) WITH CHECK (created_by = auth.uid())] *)
Definition team_creators_can_update_their_teams (r : team.t) : bool :=
  bool_decide (team.created_by r = uid).

Definition team_creators_can_delete_their_teams (r : team.t) : bool :=
  bool_decide (team.created_by r = uid).

(** *** team_members *)

Definition users_can_view_team_memberships_of_their_teams (r : team_member.t) : bool :=
  bool_decide (team_member.user_id r = uid)
  || has_membership d (team_member.team_id r) uid.

Definition team_admins_can_add_members (r : team_member.t) : bool :=
  team_created_by d (team_member.team_id r) uid.

Definition team_admins_can_remove_members (r : team_member.t) : bool :=
  team_created_by d (team_member.team_id r) uid.

Definition users_can_remove_themselves_from_teams (r : team_member.t) : bool :=
  bool_decide (team_member.user_id r = uid).

(** *** devices *)

Definition users_can_view_their_own_devices (r : device.t) : bool :=
  bool_decide (device.owner_id r = uid).

Definition team_members_can_view_team_devices (r : device.t) : bool :=
  match device.team_id r with
  | Some t => has_membership d t uid
  | None => false
  end.

Definition users_can_create_devices (r : device.t) : bool :=
  bool_decide (device.owner_id r = uid).

Definition device_owners_can_update_their_devices (r : device.t) : bool :=
  bool_decide (device.owner_id r = uid).

Definition team_admins_can_update_team_devices (r : device.t) : bool :=
  match device.team_id r with
  | Some t => team_created_by d t uid
  | None => false
  end.

Definition device_owners_can_delete_their_devices (r : device.t) : bool :=
  bool_decide (device.owner_id r = uid).

(** *** commands *)

(** [EXISTS (SELECT 1 FROM devices WHERE devices.id = commands.device_id
    AND devices.owner_id = auth.uid())] *)
Definition owns_device_of (r : command.t) : bool :=
  match devices d !! command.device_id r with
  | Some dev => bool_decide (device.owner_id dev = uid)
  | None => false
  end.

(** [EXISTS (SELECT 1 FROM devices JOIN team_members
    ON team_members.team_id = devices.team_id
    WHERE devices.id = commands.device_id
    AND team_members.user_id = auth.uid())]: a device without a team joins
    with no membership row. *)
Definition shares_team_of_device_of (r : command.t) : bool :=
  match devices d !! command.device_id r with
  | Some dev =>
      match device.team_id dev with
      | Some t => has_membership d t uid
      | None => false
      end
  | None => false
  end.

Definition users_can_view_commands_for_their_devices (r : command.t) : bool :=
  owns_device_of r.

Definition team_members_can_view_commands_for_team_devices (r : command.t) : bool :=
  shares_team_of_device_of r.

Definition users_can_send_commands_to_their_devices (r : command.t) : bool :=
  bool_decide (command.sent_by r = uid) && owns_device_of r.

Definition team_members_can_send_commands_to_team_devices (r : command.t) : bool :=
  bool_decide (command.sent_by r = uid) && shares_team_of_device_of r.

(** [USING (true) WITH CHECK (true)] *)
Definition system_can_update_command_status (r : command.t) : bool := true.

End policies.

(** *** Policy expansion

    The tables, and the commands a policy is [FOR]. *)
Inductive relation := rel_teams | rel_team_members | rel_devices | rel_commands.

Inductive policy_for := for_select | for_insert | for_update | for_delete.

#[global] Instance relation_eq_dec : EqDecision relation.
Proof. solve_decision. Defined.

Definition relation_name (rel : relation) : string :=
  match rel with
  | rel_teams => "teams"
  | rel_team_members => "team_members"
  | rel_devices => "devices"
  | rel_commands => "commands"
  end.

(** The tables named in the sub-queries of the policies [ON rel FOR cmd],
    USING and WITH CHECK, in the order of the migration. *)
Definition policy_subqueries (rel : relation) (cmd : policy_for) : list relation :=
  match rel, cmd with
  | rel_teams, for_select => [rel_team_members]
  | rel_teams, (for_insert | for_update | for_delete) => []
  | rel_team_members, for_select => [rel_team_members]
  | rel_team_members, for_insert => [rel_teams]
  | rel_team_members, for_delete => [rel_teams]
  | rel_team_members, for_update => []
  | rel_devices, for_select => [rel_team_members]
  | rel_devices, for_update => [rel_teams; rel_teams]
  | rel_devices, (for_insert | for_delete) => []
  | rel_commands, (for_select | for_insert) =>
      [rel_devices; rel_devices; rel_team_members]
  | rel_commands, (for_update | for_delete) => []
  end.

(** Adding the policies of [rel] for the commands [cmds] to a statement:
    the tables of their sub-queries are read, so the SELECT policies of
    each are added in turn, with [rel] noted as being expanded.  The result
    is the table that is reached while its own policies are being
    expanded, if there is one.  There are four tables, so the nesting is
    at most four deep. *)
Fixpoint infinite_recursion (depth : nat) (active : list relation)
    (rel : relation) (cmds : list policy_for) : option relation :=
  if bool_decide (rel ∈ active) then Some rel
  else
    match depth with
    | O => None
    | S depth =>
        foldr (λ sub found,
                 match infinite_recursion depth (rel :: active) sub [for_select] with
                 | Some x => Some x
                 | None => found
                 end)
              None (cmds ≫= policy_subqueries rel)
    end.

(** What a role's statement on [rel] meets before it runs: [cmds] are the
    commands whose policies apply, [for_select] among them when the
    statement reads the table ([WHERE], [RETURNING]).  All policies are
    [TO authenticated]: there is nothing to expand for the anon role, and
    the service role bypasses row-level security. *)
Definition policy_expansion (r : pg_role) (rel : relation)
    (cmds : list policy_for) : option pg_error :=
  match r with
  | authenticated _ =>
      (λ x, invalid_object_definition (relation_name x))
        <$> infinite_recursion 4 [] rel cmds
  | service_role | anon => None
  end.

(** The permissive policies of one table and one command are combined with
    OR; a table without a policy for a command admits no row.  The service
    role bypasses the policies, the anon role has none.  Under a signed-in
    session only a statement that passed [policy_expansion] gets here, and
    the policies of such a statement have no sub-query. *)
Definition rls (r : pg_role) (policy : uuid → bool) : bool :=
  match r with
  | service_role => true
  | authenticated uid => policy uid
  | anon => false
  end.

Definition teams_select (d : db) (id : uuid) (x : team.t) (uid : uuid) : bool :=
  users_can_view_teams_they_are_members_of uid d id x.
Definition teams_insert_check (x : team.t) (uid : uuid) : bool :=
  users_can_create_teams uid x.
Definition teams_update_using (x : team.t) (uid : uuid) : bool :=
  team_creators_can_update_their_teams uid x.
Definition teams_update_check (x : team.t) (uid : uuid) : bool :=
  team_creators_can_update_their_teams uid x.
Definition teams_delete_using (x : team.t) (uid : uuid) : bool :=
  team_creators_can_delete_their_teams uid x.

Definition team_members_select (d : db) (x : team_member.t) (uid : uuid) : bool :=
  users_can_view_team_memberships_of_their_teams uid d x.
Definition team_members_insert_check (d : db) (x : team_member.t) (uid : uuid) : bool :=
  team_admins_can_add_members uid d x.
Definition team_members_delete_using (d : db) (x : team_member.t) (uid : uuid) : bool :=
  team_admins_can_remove_members uid d x
  || users_can_remove_themselves_from_teams uid x.

Definition devices_select (d : db) (x : device.t) (uid : uuid) : bool :=
  users_can_view_their_own_devices uid x
  || team_members_can_view_team_devices uid d x.
Definition devices_insert_check (x : device.t) (uid : uuid) : bool :=
  users_can_create_devices uid x.
Definition devices_update_using (d : db) (x : device.t) (uid : uuid) : bool :=
  device_owners_can_update_their_devices uid x
  || team_admins_can_update_team_devices uid d x.
Definition devices_update_check (d : db) (x : device.t) (uid : uuid) : bool :=
  device_owners_can_update_their_devices uid x
  || team_admins_can_update_team_devices uid d x.
Definition devices_delete_using (x : device.t) (uid : uuid) : bool :=
  device_owners_can_delete_their_devices uid x.

Definition commands_select (d : db) (x : command.t) (uid : uuid) : bool :=
  users_can_view_commands_for_their_devices uid d x
  || team_members_can_view_commands_for_team_devices uid d x.
Definition commands_insert_check (d : db) (x : command.t) (uid : uuid) : bool :=
  users_can_send_commands_to_their_devices uid d x
  || team_members_can_send_commands_to_team_devices uid d x.
Definition commands_update_using (x : command.t) (uid : uuid) : bool :=
  system_can_update_command_status x.
Definition commands_update_check (x : command.t) (uid : uuid) : bool :=
  system_can_update_command_status x.

(** ** Statements

    A statement is first expanded with the policies that apply to it
    ([policy_expansion]); a statement refused there touches no row.  The
    order in which the data store then checks a new row: the value must fit
    the column type; then the WITH CHECK policies; then NOT NULL and CHECK
    constraints; then the primary key and UNIQUE indexes; then the foreign
    keys.  An UPDATE or DELETE [WHERE id = ...] reads the row it changes,
    so it touches only rows that pass the SELECT policies as well as its
    own USING policies; rows that do not pass are skipped without an
    error.  An UPDATE checks the new row against its WITH CHECK policies
    and, having read the row, against the SELECT policies; it checks a
    foreign key again only when the referencing column changes. *)

(** The range of the column type [integer]; a number outside it is
    refused when the statement is read (out of range, or not an integer
    literal when JSON prints it with an exponent). *)
Definition int4 (z : Z) : bool :=
  bool_decide (-2147483648 ≤ z) && bool_decide (z ≤ 2147483647).

(** [CHECK (port > 0 AND port <= 65535)] *)
Definition devices_port_check (p : Z) : bool :=
  bool_decide (0 < p) && bool_decide (p ≤ 65535).

(** *** commands *)

Definition command_of_insert (e : env) (i : command.Insert) : command.t :=
  command.mk (command.i_device_id i) (command.i_command_type i)
    (default "{}"%string (command.i_payload i))
    (default pending (command.i_status i))
    (command.i_sent_by i)
    (default (now e) (command.i_sent_at i))
    (command.i_executed_at i).

(** [supabase.from('commands').insert(i)] *)
Definition commands_insert (r : pg_role) (e : env) (i : command.Insert)
    (d : db) : response :=
  let id := default (gen_random_uuid e) (command.i_id i) in
  let row := command_of_insert e i in
  match policy_expansion r rel_commands [for_insert] with
  | Some err => (d, Some err)
  | None =>
      if negb (rls r (commands_insert_check d row)) then
        (d, Some (insufficient_privilege "commands"))
      else if bool_decide (is_Some (commands d !! id)) then
        (d, Some (unique_violation "commands_pkey"))
      else if negb (bool_decide (is_Some (devices d !! command.device_id row))) then
        (d, Some (foreign_key_violation "commands_device_id_fkey"))
      else (set_commands (<[id := row]> (commands d)) d, None)
  end.

Definition command_apply_update (u : command.Update) (c : command.t) : command.t :=
  command.mk
    (default (command.device_id c) (command.u_device_id u))
    (default (command.command_type c) (command.u_command_type u))
    (default (command.payload c) (command.u_payload u))
    (default (command.status c) (command.u_status u))
    (default (command.sent_by c) (command.u_sent_by u))
    (default (command.sent_at c) (command.u_sent_at u))
    (default (command.executed_at c) (command.u_executed_at u)).

(** [supabase.from('commands').update(u).eq('id', id)] *)
Definition commands_update (r : pg_role) (id : uuid) (u : command.Update)
    (d : db) : response :=
  match policy_expansion r rel_commands [for_update; for_select] with
  | Some err => (d, Some err)
  | None =>
      match commands d !! id with
      | None => (d, None)
      | Some old =>
          if negb (rls r (λ uid, commands_select d old uid
                                 && commands_update_using old uid)) then (d, None)
          else
            let new := command_apply_update u old in
            if negb (rls r (λ uid, commands_update_check new uid
                                   && commands_select d new uid)) then
              (d, Some (insufficient_privilege "commands"))
            else if bool_decide (command.device_id new ≠ command.device_id old)
                    && negb (bool_decide
                               (is_Some (devices d !! command.device_id new))) then
              (d, Some (foreign_key_violation "commands_device_id_fkey"))
            else (set_commands (<[id := new]> (commands d)) d, None)
      end
  end.

(** [supabase.from('commands').delete().eq('id', id)]; the table has no
    DELETE policy. *)
Definition commands_delete (r : pg_role) (id : uuid) (d : db) : response :=
  match policy_expansion r rel_commands [for_delete; for_select] with
  | Some err => (d, Some err)
  | None =>
      match commands d !! id with
      | None => (d, None)
      | Some old =>
          if negb (rls r (λ uid, commands_select d old uid && false)) then (d, None)
          else (set_commands (delete id (commands d)) d, None)
      end
  end.

(** The rows a SELECT on [commands] returns to a role whose query is not
    refused; the desktop client reads under the service role. *)
Definition commands_visible (r : pg_role) (d : db) : gmap uuid command.t :=
  filter (λ kc, rls r (commands_select d kc.2) = true) (commands d).

(** [ORDER BY sent_at ASC] *)
Definition sent_at_le (a b : uuid * command.t) : Prop :=
  command.sent_at a.2 ≤ command.sent_at b.2.

#[global] Instance sent_at_le_dec : RelDecision sent_at_le.
Proof. intros a b. unfold sent_at_le. apply _. Defined.

(** [supabase.from('commands').select('*').eq('device_id', deviceId)
    .eq('status', 'pending').order('sent_at', { ascending: true })]:
    the rows come back with their key. *)
Definition commands_select_pending (r : pg_role) (deviceId : uuid) (d : db)
    : list (uuid * command.t) :=
  merge_sort sent_at_le
    (map_to_list
       (filter (λ kc, command.device_id kc.2 = deviceId
                      ∧ command.status kc.2 = pending)
               (commands_visible r d))).

(** *** devices *)

Definition device_of_insert (e : env) (i : device.Insert) (p : Z) : device.t :=
  device.mk (device.i_name i) (device.i_ip_address i) p
    (device.i_owner_id i) (device.i_team_id i)
    (default unknown (device.i_status i))
    (device.i_last_seen i)
    (default (now e) (device.i_created_at i)).

(** [REFERENCES teams(id)] on a nullable column *)
Definition team_reference_ok (d : db) (t : option uuid) : bool :=
  match t with
  | Some t => bool_decide (is_Some (teams d !! t))
  | None => true
  end.

(** [supabase.from('devices').insert(i)] *)
Definition devices_insert (r : pg_role) (e : env) (i : device.Insert)
    (d : db) : response :=
  let id := default (gen_random_uuid e) (device.i_id i) in
  match policy_expansion r rel_devices [for_insert] with
  | Some err => (d, Some err)
  | None =>
      if negb (int4 (default 0 (device.i_port i))) then
        (d, Some (data_exception "integer"))
      else if negb (rls r (devices_insert_check
                             (device_of_insert e i (default 0 (device.i_port i))))) then
        (d, Some (insufficient_privilege "devices"))
      else
        match device.i_port i with
        | None => (d, Some (not_null_violation "port"))
        | Some p =>
            if negb (devices_port_check p) then
              (d, Some (check_violation "devices_port_check"))
            else if bool_decide (is_Some (devices d !! id)) then
              (d, Some (unique_violation "devices_pkey"))
            else if negb (team_reference_ok d (device.i_team_id i)) then
              (d, Some (foreign_key_violation "devices_team_id_fkey"))
            else (set_devices (<[id := device_of_insert e i p]> (devices d)) d, None)
        end
  end.

Definition device_apply_update (u : device.Update) (p : Z) (x : device.t) : device.t :=
  device.mk
    (default (device.name x) (device.u_name u))
    (default (device.ip_address x) (device.u_ip_address u))
    p
    (default (device.owner_id x) (device.u_owner_id u))
    (default (device.team_id x) (device.u_team_id u))
    (default (device.status x) (device.u_status u))
    (default (device.last_seen x) (device.u_last_seen u))
    (default (device.created_at x) (device.u_created_at u)).

(** [supabase.from('devices').update(u).eq('id', id)] *)
Definition devices_update (r : pg_role) (id : uuid) (u : device.Update)
    (d : db) : response :=
  match policy_expansion r rel_devices [for_update; for_select] with
  | Some err => (d, Some err)
  | None =>
  match devices d !! id with
  | None => (d, None)
  | Some old =>
      let port' := default (Some (device.port old)) (device.u_port u) in
      if negb (int4 (default 0 (default None (device.u_port u)))) then
        (d, Some (data_exception "integer"))
      else if negb (rls r (λ uid, devices_select d old uid
                             && devices_update_using d old uid)) then (d, None)
      else if negb (rls r (λ uid,
                 devices_update_check d (device_apply_update u (default 0 port') old) uid
                 && devices_select d (device_apply_update u (default 0 port') old) uid)) then
        (d, Some (insufficient_privilege "devices"))
      else
        match port' with
        | None => (d, Some (not_null_violation "port"))
        | Some p =>
            let new := device_apply_update u p old in
            if negb (devices_port_check p) then
              (d, Some (check_violation "devices_port_check"))
            else if bool_decide (device.team_id new ≠ device.team_id old)
                    && negb (team_reference_ok d (device.team_id new)) then
              (d, Some (foreign_key_violation "devices_team_id_fkey"))
            else (set_devices (<[id := new]> (devices d)) d, None)
        end
  end
  end.

(** [supabase.from('devices').delete().eq('id', id)], with
    [commands.device_id ... ON DELETE CASCADE]. *)
Definition devices_delete (r : pg_role) (id : uuid) (d : db) : response :=
  match policy_expansion r rel_devices [for_delete; for_select] with
  | Some err => (d, Some err)
  | None =>
      match devices d !! id with
      | None => (d, None)
      | Some old =>
          if negb (rls r (λ uid, devices_select d old uid
                                 && devices_delete_using old uid)) then (d, None)
          else
            (set_commands (filter (λ kc, command.device_id kc.2 ≠ id) (commands d))
               (set_devices (delete id (devices d)) d), None)
      end
  end.

(** *** teams and team_members *)

Module team_insert.
Record t := mk {
  id : option uuid;
  name : string;
  created_by : uuid;
  created_at : option timestamptz;
}.
End team_insert.

Module team_member_insert.
Record t := mk {
  id : option uuid;
  team_id : uuid;
  user_id : uuid;
  role : option member_role;
  joined_at : option timestamptz;
}.
End team_member_insert.

Definition team_of_insert (e : env) (i : team_insert.t) : team.t :=
  team.mk (team_insert.name i) (team_insert.created_by i)
    (default (now e) (team_insert.created_at i)).

(** [supabase.from('teams').insert(i)]; with [.select()] the new row is
    read back and must pass the SELECT policy too. *)
Definition teams_insert (r : pg_role) (e : env) (i : team_insert.t)
    (returning : bool) (d : db) : response :=
  let id := default (gen_random_uuid e) (team_insert.id i) in
  let row := team_of_insert e i in
  match policy_expansion r rel_teams
          (if returning then [for_insert; for_select] else [for_insert]) with
  | Some err => (d, Some err)
  | None =>
      if negb (rls r (λ uid, teams_insert_check row uid
                             && (negb returning || teams_select d id row uid))) then
        (d, Some (insufficient_privilege "teams"))
      else if bool_decide (is_Some (teams d !! id)) then
        (d, Some (unique_violation "teams_pkey"))
      else (set_teams (<[id := row]> (teams d)) d, None)
  end.

(** [devices.team_id ... ON DELETE SET NULL] *)
Definition clear_team (t : uuid) (x : device.t) : device.t :=
  if bool_decide (device.team_id x = Some t) then
    device.mk (device.name x) (device.ip_address x) (device.port x)
      (device.owner_id x) None (device.status x) (device.last_seen x)
      (device.created_at x)
  else x.

(** [supabase.from('teams').delete().eq('id', id)], with
    [team_members.team_id ... ON DELETE CASCADE] and
    [devices.team_id ... ON DELETE SET NULL]. *)
Definition teams_delete (r : pg_role) (id : uuid) (d : db) : response :=
  match policy_expansion r rel_teams [for_delete; for_select] with
  | Some err => (d, Some err)
  | None =>
      match teams d !! id with
      | None => (d, None)
      | Some old =>
          if negb (rls r (λ uid, teams_select d id old uid
                                 && teams_delete_using old uid)) then (d, None)
          else
            (mkDb (delete id (teams d))
                  (filter (λ km, team_member.team_id km.2 ≠ id) (team_members d))
                  (clear_team id <$> devices d)
                  (commands d), None)
      end
  end.

Definition team_member_of_insert (e : env) (i : team_member_insert.t) : team_member.t :=
  team_member.mk (team_member_insert.team_id i) (team_member_insert.user_id i)
    (default member (team_member_insert.role i))
    (default (now e) (team_member_insert.joined_at i)).

(** [supabase.from('team_members').insert(i)], with [UNIQUE(team_id, user_id)]. *)
Definition team_members_insert (r : pg_role) (e : env)
    (i : team_member_insert.t) (d : db) : response :=
  let id := default (gen_random_uuid e) (team_member_insert.id i) in
  let row := team_member_of_insert e i in
  match policy_expansion r rel_team_members [for_insert] with
  | Some err => (d, Some err)
  | None =>
      if negb (rls r (team_members_insert_check d row)) then
        (d, Some (insufficient_privilege "team_members"))
      else if bool_decide (is_Some (team_members d !! id)) then
        (d, Some (unique_violation "team_members_pkey"))
      else if has_membership d (team_member.team_id row) (team_member.user_id row) then
        (d, Some (unique_violation "team_members_team_id_user_id_key"))
      else if negb (bool_decide (is_Some (teams d !! team_member.team_id row))) then
        (d, Some (foreign_key_violation "team_members_team_id_fkey"))
      else (set_team_members (<[id := row]> (team_members d)) d, None)
  end.

(** [supabase.from('team_members').delete().eq('id', id)] *)
Definition team_members_delete (r : pg_role) (id : uuid) (d : db) : response :=
  match policy_expansion r rel_team_members [for_delete; for_select] with
  | Some err => (d, Some err)
  | None =>
      match team_members d !! id with
      | None => (d, None)
      | Some old =>
          if negb (rls r (λ uid, team_members_select d old uid
                                 && team_members_delete_using d old uid)) then (d, None)
          else (set_team_members (delete id (team_members d)) d, None)
      end
  end.

(** The [Update] shapes of [teams] and [team_members], without the key. *)
Module team_update.
Record t := mk {
  name : option string;
  created_by : option uuid;
  created_at : option timestamptz;
}.
End team_update.

Module team_member_update.
Record t := mk {
  team_id : option uuid;
  user_id : option uuid;
  role : option member_role;
  joined_at : option timestamptz;
}.
End team_member_update.

Definition team_apply_update (u : team_update.t) (x : team.t) : team.t :=
  team.mk (default (team.name x) (team_update.name u))
    (default (team.created_by x) (team_update.created_by u))
    (default (team.created_at x) (team_update.created_at u)).

(** [supabase.from('teams').update(u).eq('id', id)] *)
Definition teams_update (r : pg_role) (id : uuid) (u : team_update.t)
    (d : db) : response :=
  match policy_expansion r rel_teams [for_update; for_select] with
  | Some err => (d, Some err)
  | None =>
      match teams d !! id with
      | None => (d, None)
      | Some old =>
          if negb (rls r (λ uid, teams_select d id old uid
                                 && teams_update_using old uid)) then (d, None)
          else
            let new := team_apply_update u old in
            if negb (rls r (λ uid, teams_update_check new uid
                                   && teams_select d id new uid)) then
              (d, Some (insufficient_privilege "teams"))
            else (set_teams (<[id := new]> (teams d)) d, None)
      end
  end.

Definition team_member_apply_update (u : team_member_update.t)
    (x : team_member.t) : team_member.t :=
  team_member.mk (default (team_member.team_id x) (team_member_update.team_id u))
    (default (team_member.user_id x) (team_member_update.user_id u))
    (default (team_member.role x) (team_member_update.role u))
    (default (team_member.joined_at x) (team_member_update.joined_at u)).

(** Another row than [id] holds the pair [(team_id, user_id)] of [x]. *)
Definition membership_taken (d : db) (id : uuid) (x : team_member.t) : bool :=
  bool_decide (map_Exists
    (λ k m, k ≠ id ∧ team_member.team_id m = team_member.team_id x
            ∧ team_member.user_id m = team_member.user_id x)
    (team_members d)).

(** [supabase.from('team_members').update(u).eq('id', id)]; the table has
    no UPDATE policy. *)
Definition team_members_update (r : pg_role) (id : uuid)
    (u : team_member_update.t) (d : db) : response :=
  match policy_expansion r rel_team_members [for_update; for_select] with
  | Some err => (d, Some err)
  | None =>
      match team_members d !! id with
      | None => (d, None)
      | Some old =>
          if negb (rls r (λ uid, team_members_select d old uid && false)) then (d, None)
          else
            let new := team_member_apply_update u old in
            if membership_taken d id new then
              (d, Some (unique_violation "team_members_team_id_user_id_key"))
            else if bool_decide (team_member.team_id new ≠ team_member.team_id old)
                    && negb (bool_decide
                               (is_Some (teams d !! team_member.team_id new))) then
              (d, Some (foreign_key_violation "team_members_team_id_fkey"))
            else (set_team_members (<[id := new]> (team_members d)) d, None)
      end
  end.

(** ** Statements as data

    A single statement a client sends: an insert, an update of columns
    other than the key, or a delete by key, on one of the four tables. *)
Inductive statement :=
  | InsertCommand (e : env) (i : command.Insert)
  | UpdateCommand (id : uuid) (u : command.Update)
  | DeleteCommand (id : uuid)
  | InsertDevice (e : env) (i : device.Insert)
  | UpdateDevice (id : uuid) (u : device.Update)
  | DeleteDeviceRow (id : uuid)
  | InsertTeam (e : env) (i : team_insert.t) (returning : bool)
  | UpdateTeam (id : uuid) (u : team_update.t)
  | DeleteTeamRow (id : uuid)
  | InsertTeamMember (e : env) (i : team_member_insert.t)
  | UpdateTeamMember (id : uuid) (u : team_member_update.t)
  | DeleteTeamMember (id : uuid).

Definition execute (r : pg_role) (s : statement) (d : db) : response :=
  match s with
  | InsertCommand e i => commands_insert r e i d
  | UpdateCommand id u => commands_update r id u d
  | DeleteCommand id => commands_delete r id d
  | InsertDevice e i => devices_insert r e i d
  | UpdateDevice id u => devices_update r id u d
  | DeleteDeviceRow id => devices_delete r id d
  | InsertTeam e i returning => teams_insert r e i returning d
  | UpdateTeam id u => teams_update r id u d
  | DeleteTeamRow id => teams_delete r id d
  | InsertTeamMember e i => team_members_insert r e i d
  | UpdateTeamMember id u => team_members_update r id u d
  | DeleteTeamMember id => team_members_delete r id d
  end.

Inductive statement_step : db → db → Prop :=
  | step_statement r s d : statement_step d (execute r s d).1.

(** The effect of a role's statements sent one after the other, and the
    databases they lead through. *)
Definition run (r : pg_role) (l : list statement) (d : db) : db :=
  foldl (λ d s, (execute r s d).1) d l.

Fixpoint states (r : pg_role) (l : list statement) (d : db) : list db :=
  match l with
  | [] => []
  | s :: l => (execute r s d).1 :: states r l (execute r s d).1
  end.

(** ** Form controls

    The modals' inputs carry [required], and the port input is
    [type="number" min="1" max="65535"].  The browser checks these
    constraints when the form is submitted and calls [onSubmit] only when
    every control is valid.  The number of a control is given exactly; the
    browser holds it as a double, which is that number for the integers
    up to [2^53 - 1] in magnitude, the range the properties below keep
    to. *)

Inductive validity := valueMissing | rangeUnderflow | rangeOverflow | stepMismatch.

#[global] Instance validity_eq_dec : EqDecision validity.
Proof. solve_decision. Defined.

Definition is_digit (c : ascii) : bool :=
  (48 <=? nat_of_ascii c)%nat && (nat_of_ascii c <=? 57)%nat.

Definition digit_value (c : ascii) : Z := Z.of_nat (nat_of_ascii c) - 48.

(** The value of a run of decimal digits, most significant first, on top of
    an accumulator; returns the rest of the string and how many digits were
    read. *)
Fixpoint read_digits (s : string) (acc : Z) (n : nat) : Z * nat * string :=
  match s with
  | String c s' =>
      if is_digit c then read_digits s' (acc * 10 + digit_value c) (S n)
      else (acc, n, s)
  | EmptyString => (acc, n, s)
  end.

Definition pow10 (z : Z) : Q :=
  if bool_decide (0 ≤ z) then inject_Z (10 ^ z) else Qmake 1 (Z.to_pos (10 ^ (- z))).

(** The number a "valid floating-point number" denotes: an optional [-],
    digits and/or a fraction, an optional exponent; [None] when the string
    is not one (the control's value is then the empty string). *)
Definition number_value (s : string) : option Q :=
  let '(neg, s) := match s with
                   | String "-"%char s' => (true, s')
                   | _ => (false, s)
                   end in
  let '(ip, ni, s) := read_digits s 0 0%nat in
  let frac := match s with
              | String "."%char s' =>
                  let '(m, nf, s'') := read_digits s' ip 0%nat in
                  if bool_decide (nf = 0%nat) then None else Some (m, nf, s'')
              | _ => if bool_decide (ni = 0%nat) then None else Some (ip, 0%nat, s)
              end in
  match frac with
  | None => None
  | Some (m, nf, s) =>
      let ex := match s with
                | EmptyString => Some 0
                | String c s' =>
                    if bool_decide (c = "e"%char ∨ c = "E"%char) then
                      let '(eneg, s') := match s' with
                                         | String "-"%char t => (true, t)
                                         | String "+"%char t => (false, t)
                                         | _ => (false, s')
                                         end in
                      match read_digits s' 0 0%nat with
                      | (x, S _, EmptyString) => Some (if eneg : bool then - x else x)
                      | _ => None
                      end
                    else None
                end in
      match ex with
      | None => None
      | Some x =>
          Some (Qmult (inject_Z (if neg : bool then - m else m))
                      (pow10 (x - Z.of_nat nf)))
      end
  end.

Definition is_integer (q : Q) : bool := bool_decide (Qden (Qred q) = 1%positive).

(** [<input type="text" required>] *)
Definition text_required (v : string) : list validity :=
  if bool_decide (v = ""%string) then [valueMissing] else [].

(** [<input type="number" min max required>]; the default step is 1 and
    the step base is [min]. *)
Definition number_required (min max : Z) (v : string) : list validity :=
  match number_value v with
  | None => [valueMissing]
  | Some q =>
      (if Qle_bool (inject_Z min) q then [] else [rangeUnderflow])
      ++ (if Qle_bool q (inject_Z max) then [] else [rangeOverflow])
      ++ (if is_integer (Qminus q (inject_Z min)) then [] else [stepMismatch])
  end.

Definition is_whitespace (c : ascii) : bool :=
  bool_decide (nat_of_ascii c ∈ [9; 10; 11; 12; 13; 32]%nat).

Fixpoint trim_start (s : string) : string :=
  match s with
  | String c s' => if is_whitespace c then trim_start s' else s
  | EmptyString => s
  end.

Definition hex_digit_value (c : ascii) : option Z :=
  let n := nat_of_ascii c in
  if is_digit c then Some (digit_value c)
  else if (97 <=? n)%nat && (n <=? 102)%nat then Some (Z.of_nat n - 87)
  else if (65 <=? n)%nat && (n <=? 70)%nat then Some (Z.of_nat n - 55)
  else None.

Fixpoint read_hex_digits (s : string) (acc : Z) (n : nat) : Z * nat :=
  match s with
  | String c s' =>
      match hex_digit_value c with
      | Some v => read_hex_digits s' (acc * 16 + v) (S n)
      | None => (acc, n)
      end
  | EmptyString => (acc, n)
  end.

(** JavaScript's [parseInt(s)] without a radix: leading (ASCII) white
    space and a sign are skipped, a [0x] prefix selects base 16, the
    longest run of digits is read and the rest ignored; no digit gives
    [NaN] ([None]).  The result is the integer the digits denote;
    JavaScript holds it as a double, which is that integer as long as its
    magnitude is at most [2^53 - 1].  The properties below keep to that
    range. *)
Definition parseInt (s : string) : option Z :=
  let s := trim_start s in
  let '(neg, s) := match s with
                   | String "-"%char s' => (true, s')
                   | String "+"%char s' => (false, s')
                   | _ => (false, s)
                   end in
  let '(v, n) :=
    match s with
    | String "0"%char (String x s') =>
        if bool_decide (x = "x"%char ∨ x = "X"%char) then read_hex_digits s' 0 0%nat
        else let '(v, n, _) := read_digits s 0 0%nat in (v, n)
    | _ => let '(v, n, _) := read_digits s 0 0%nat in (v, n)
    end in
  if bool_decide (n = 0%nat) then None
  else Some (if neg : bool then - v else v).

(** ** The dashboard

    [user] is the signed-in user of [useAuth()]; the statements run under
    that user's session. *)

Definition session (user : option uuid) : pg_role :=
  match user with
  | Some u => authenticated u
  | None => anon
  end.

(** [Dashboard.sendCommand] *)
Definition sendCommand (user : option uuid) (deviceId : uuid)
    (commandType : command_kind) (e : env) (d : db) : response :=
  match user with
  | None => (d, None)
  | Some u =>
      commands_insert (session user) e
        (command.mkInsert None deviceId commandType None (Some pending) u None None) d
  end.

(** [Dashboard.deleteDevice]; [confirmed] is the answer to the [confirm]
    dialog. *)
Definition deleteDevice (user : option uuid) (confirmed : bool)
    (deviceId : uuid) (d : db) : response :=
  if negb confirmed then (d, None)
  else devices_delete (session user) deviceId d.

(** [AddDeviceModal.handleSubmit]; [name], [ipAddress] and [port] are the
    component's state, the text of the three inputs. *)
Definition AddDeviceModal_handleSubmit (user : option uuid)
    (name ipAddress port : string) (e : env) (d : db) : response :=
  match user with
  | None => (d, None)
  | Some u =>
      devices_insert (session user) e
        (device.mkInsert None name ipAddress (parseInt port) u None None None None) d
  end.

(** [EditDeviceModal.handleSubmit] for the device with key [id]. *)
Definition EditDeviceModal_handleSubmit (user : option uuid) (id : uuid)
    (name ipAddress port : string) (d : db) : response :=
  devices_update (session user) id
    (device.mkUpdate (Some name) (Some ipAddress) (Some (parseInt port))
       None None None None None) d.

(** The constraints on the three controls of both device forms. *)
Definition device_form_validity (name ipAddress port : string)
    : list (string * validity) :=
  (pair "name"%string <$> text_required name)
  ++ (pair "ip_address"%string <$> text_required ipAddress)
  ++ (pair "port"%string <$> number_required 1 65535 port).

(** Pressing the submit button: the handler runs only on a valid form. *)
Inductive submission :=
  | blocked (invalid : list (string * validity))
  | submitted (res : response).

Definition submission_db (s : submission) (d : db) : db :=
  match s with
  | blocked _ => d
  | submitted res => res.1
  end.

Definition AddDeviceModal_submit (user : option uuid)
    (name ipAddress port : string) (e : env) (d : db) : submission :=
  match device_form_validity name ipAddress port with
  | [] => submitted (AddDeviceModal_handleSubmit user name ipAddress port e d)
  | invalid => blocked invalid
  end.

Definition EditDeviceModal_submit (user : option uuid) (id : uuid)
    (name ipAddress port : string) (d : db) : submission :=
  match device_form_validity name ipAddress port with
  | [] => submitted (EditDeviceModal_handleSubmit user id name ipAddress port d)
  | invalid => blocked invalid
  end.

(** [Teams.deleteTeam] *)
Definition deleteTeam (user : option uuid) (confirmed : bool)
    (teamId : uuid) (d : db) : response :=
  if negb confirmed then (d, None)
  else teams_delete (session user) teamId d.

(** [CreateTeamModal.handleSubmit]: the team, then its creator as an
    [admin] member; the outcome of the second insert is not looked at. *)
Definition CreateTeamModal_handleSubmit (user : option uuid) (name : string)
    (e1 e2 : env) (d : db) : response :=
  match user with
  | None => (d, None)
  | Some u =>
      match teams_insert (session user) e1 (team_insert.mk None name u None) true d with
      | (d1, Some err) => (d1, Some err)
      | (d1, None) =>
          ((team_members_insert (session user) e2
              (team_member_insert.mk None (gen_random_uuid e1) u (Some admin) None)
              d1).1, None)
      end
  end.

(** [supabase.from('auth.users').select('id').eq('email', email)
    .maybeSingle()]: [data] and [error].  The REST interface serves the
    tables of schema [public]; none of them is named [auth.users], and the
    query comes back with an error whatever the address and the session. *)
Definition auth_users_select_id (r : pg_role) (email : string)
    : option uuid * option pg_error :=
  (None, Some (undefined_table "auth.users")).

(** [ManageTeamModal.addMember]; [newMemberEmail] is the text of the e-mail
    input.  With [userError] or without [userData] it says "User not
    found" and returns. *)
Definition addMember (user : option uuid) (teamId : uuid)
    (newMemberEmail : string) (e : env) (d : db) : response :=
  match auth_users_select_id (session user) newMemberEmail with
  | (Some who, None) =>
      team_members_insert (session user) e
        (team_member_insert.mk None teamId who (Some member) None) d
  | _ => (d, None)
  end.

(** [ManageTeamModal.removeMember] *)
Definition removeMember (user : option uuid) (memberId : uuid) (d : db) : response :=
  team_members_delete (session user) memberId d.

(** ** The desktop client (service role) *)

Definition set_status (s : command_status) : command.Update :=
  command.mkUpdate None None None (Some s) None None None.

Definition set_executed (date : timestamptz) : command.Update :=
  command.mkUpdate None None None (Some executed) None None (Some (Some date)).

(** The statements [executeCommand(command)] sends, in order.
    [completes] tells whether the action run for the command ([zoomUnmute]
    or [musicPlayerNext]) returns normally rather than throws; [date] is
    [new Date()] at the last update.  The outcome of an update is not
    looked at. *)
Definition executeCommand_statements (command : uuid * command.t)
    (completes : bool) (date : timestamptz) : list statement :=
  [ UpdateCommand command.1 (set_status delivered);
    if completes then UpdateCommand command.1 (set_executed date)
    else UpdateCommand command.1 (set_status failed) ].

(** [executeCommand(command)] *)
Definition executeCommand (command : uuid * command.t) (completes : bool)
    (date : timestamptz) (d : db) : db :=
  run service_role (executeCommand_statements command completes date) d.

(** What one poll cycle draws from its environment. *)
Record poll_env := mkPollEnv {
  completes : uuid → bool;
  executed_date : uuid → timestamptz;
  seen_date : timestamptz;
}.

Definition online_now (date : timestamptz) : device.Update :=
  device.mkUpdate None None None None None (Some online) (Some (Some date)) None.

(** The statements of one poll cycle after its query has returned
    [commands]: [executeCommand] for each row in turn, then the update of
    the client's device. *)
Definition pollCommands_statements (DEVICE_ID : uuid) (pe : poll_env)
    (commands : list (uuid * command.t)) : list statement :=
  (commands ≫= λ command,
     executeCommand_statements command (completes pe command.1)
       (executed_date pe command.1))
  ++ [UpdateDevice DEVICE_ID (online_now (seen_date pe))].

(** [pollCommands()] of the client configured with [DEVICE_ID]. *)
Definition pollCommands (DEVICE_ID : uuid) (pe : poll_env) (d : db) : db :=
  let commands := commands_select_pending service_role DEVICE_ID d in
  run service_role (pollCommands_statements DEVICE_ID pe commands) d.

(** ** Steps of the system *)

(** What the dashboard can do on a user's behalf. *)
Inductive producer_op :=
  | SendCommand (user : option uuid) (deviceId : uuid) (commandType : command_kind) (e : env)
  | DeleteDevice (user : option uuid) (confirmed : bool) (deviceId : uuid)
  | AddDevice (user : option uuid) (name ipAddress port : string) (e : env)
  | EditDevice (user : option uuid) (id : uuid) (name ipAddress port : string)
  | DeleteTeam (user : option uuid) (confirmed : bool) (teamId : uuid)
  | CreateTeam (user : option uuid) (name : string) (e1 e2 : env)
  | AddMember (user : option uuid) (teamId : uuid) (newMemberEmail : string) (e : env)
  | RemoveMember (user : option uuid) (memberId : uuid).

Definition run_producer (op : producer_op) (d : db) : db :=
  match op with
  | SendCommand user deviceId commandType e => (sendCommand user deviceId commandType e d).1
  | DeleteDevice user confirmed deviceId => (deleteDevice user confirmed deviceId d).1
  | AddDevice user name ipAddress port e =>
      (AddDeviceModal_handleSubmit user name ipAddress port e d).1
  | EditDevice user id name ipAddress port =>
      (EditDeviceModal_handleSubmit user id name ipAddress port d).1
  | DeleteTeam user confirmed teamId => (deleteTeam user confirmed teamId d).1
  | CreateTeam user name e1 e2 => (CreateTeamModal_handleSubmit user name e1 e2 d).1
  | AddMember user teamId newMemberEmail e =>
      (addMember user teamId newMemberEmail e d).1
  | RemoveMember user memberId => (removeMember user memberId d).1
  end.

(** One step of the repository's own code: a dashboard action, or one poll
    cycle of a desktop client. *)
Inductive app_step : db → db → Prop :=
  | step_producer op d : app_step d (run_producer op d)
  | step_consumer DEVICE_ID pe d : app_step d (pollCommands DEVICE_ID pe d).

(** ** The command lifecycle *)



(** Where [executeCommand] leaves a command: [executed] with its date when
    the action completed, [failed] when it threw. *)
Definition finish (ok : bool) (date : timestamptz) (c : command.t) : command.t :=
  if ok then command_apply_update (set_executed date)
               (command_apply_update (set_status delivered) c)
  else command_apply_update (set_status failed)
         (command_apply_update (set_status delivered) c).

(** ** A run of the system

    User 7 registers the device "Prime" through the Add Device form; a
    command [unmute_zoom] for it, in that user's name, is queued under the
    service role; the desktop client of the device polls, and the action
    completes. *)

Definition registered : db :=
  (AddDeviceModal_handleSubmit (Some 7%nat) "Prime" "192.168.1.100" "3000"
     (mkEnv 1 100) empty_db).1.

Definition queue_command (deviceId : uuid) (commandType : command_kind)
    (u : uuid) : command.Insert :=
  command.mkInsert None deviceId commandType None (Some pending) u None None.

Definition sent : db :=
  (commands_insert service_role (mkEnv 2 200) (queue_command 1 unmute_zoom 7)
     registered).1.

Definition all_complete : poll_env := mkPollEnv (λ _, true) (λ _, 300) 400.

Definition polled : db := pollCommands 1%nat all_complete sent.

(** ** Who may use a device

    Ownership and team membership, read off the tables. *)

(** [u] has a membership row in team [t]. *)
Definition is_team_member (d : db) (t u : uuid) : Prop :=
  ∃ k m, team_members d !! k = Some m
         ∧ team_member.team_id m = t ∧ team_member.user_id m = u.

(** [u] owns device [deviceId] or is a member of the device's team. *)
Definition owner_or_team_member (d : db) (u deviceId : uuid) : Prop :=
  ∃ dev, devices d !! deviceId = Some dev
         ∧ (device.owner_id dev = u
            ∨ ∃ t, device.team_id dev = Some t ∧ is_team_member d t u).

(** ** A shared device

    User 1 created team 10 and is its admin member; user 2 was added to the
    team with the admin role; user 4 with the member role.  Device 5
    belongs to user 3 and is assigned to the team; command 6 for it is
    pending. *)

Definition shared : db :=
  mkDb {[ 10%nat := team.mk "DJ Team" 1%nat 0 ]}
       {[ 20%nat := team_member.mk 10%nat 1%nat admin 0;
          21%nat := team_member.mk 10%nat 2%nat admin 0;
          22%nat := team_member.mk 10%nat 4%nat member 0 ]}
       {[ 5%nat := device.mk "VIP" "192.168.1.101" 3000 3%nat (Some 10%nat)
                     online (Some 50) 10 ]}
       {[ 6%nat := command.mk 5%nat next_track "{}" pending 4%nat 60 None ]}.

(** ** A queue

    Three commands for "Prime" are queued under the service role, at times
    210, 220 and 230; the keys drawn for them are 9, 4 and 6. *)

Definition queued : db :=
  run service_role
    [ InsertCommand (mkEnv 9 210) (queue_command 1 next_track 7);
      InsertCommand (mkEnv 4 220) (queue_command 1 next_track 7);
      InsertCommand (mkEnv 6 230) (queue_command 1 unmute_zoom 7) ]
    registered.

(** ** A team of one

    Under the service role team 10 is created in the name of user 7, that
    user is made its admin member and "Prime" is assigned to it, while the
    command of [sent] is pending. *)

Definition assign_team (t : uuid) : device.Update :=
  device.mkUpdate None None None None (Some (Some t)) None None None.

Definition assigned : db :=
  run service_role
    [ InsertTeam (mkEnv 10 50) (team_insert.mk None "DJ Team" 7 None) false;
      InsertTeamMember (mkEnv 20 60)
        (team_member_insert.mk None 10 7 (Some admin) None);
      UpdateDevice 1 (assign_team 10) ]
    sent.

(** ** The dashboard's queries *)

(** A query is expanded with the SELECT policies of the tables it reads. *)
Fixpoint query_expansion (r : pg_role) (rels : list relation) : option pg_error :=
  match rels with
  | [] => None
  | rel :: rels =>
      match policy_expansion r rel [for_select] with
      | Some err => Some err
      | None => query_expansion r rels
      end
  end.

(** The rows a SELECT on [devices], [teams], [team_members] returns to a
    role whose query is not refused. *)
Definition devices_visible (r : pg_role) (d : db) : gmap uuid device.t :=
  filter (λ kx, rls r (devices_select d kx.2) = true) (devices d).

Definition teams_visible (r : pg_role) (d : db) : gmap uuid team.t :=
  filter (λ kx, rls r (teams_select d kx.1 kx.2) = true) (teams d).

Definition team_members_visible (r : pg_role) (d : db) : gmap uuid team_member.t :=
  filter (λ kx, rls r (team_members_select d kx.2) = true) (team_members d).

(** [team:teams(name)]: the name of the device's team, when the device has
    one and the role can see it, else [null]. *)
Definition embedded_team (r : pg_role) (d : db) (x : device.t) : option string :=
  match device.team_id x with
  | Some t => team.name <$> teams_visible r d !! t
  | None => None
  end.

(** [.order('created_at', { ascending: false })] *)
Definition device_created_at_ge (a b : uuid * device.t * option string) : Prop :=
  device.created_at b.1.2 ≤ device.created_at a.1.2.

#[global] Instance device_created_at_ge_dec : RelDecision device_created_at_ge.
Proof. intros a b. unfold device_created_at_ge. apply _. Defined.

Definition team_created_at_ge (a b : uuid * team.t) : Prop :=
  team.created_at b.2 ≤ team.created_at a.2.

#[global] Instance team_created_at_ge_dec : RelDecision team_created_at_ge.
Proof. intros a b. unfold team_created_at_ge. apply _. Defined.

(** [Dashboard.loadDevices]: the list handed to [setDevices], or the error
    that is logged instead.  The query reads [devices] and, for
    [team:teams(name)], [teams]. *)
Definition loadDevices (user : option uuid) (d : db)
    : list (uuid * device.t * option string) + pg_error :=
  match query_expansion (session user) [rel_devices; rel_teams] with
  | Some err => inr err
  | None =>
      inl (merge_sort device_created_at_ge
             ((λ kx, (kx.1, kx.2, embedded_team (session user) d kx.2))
                <$> map_to_list (devices_visible (session user) d)))
  end.

(** [Teams.loadTeams]: the list handed to [setTeams], or the error that is
    logged instead. *)
Definition loadTeams (user : option uuid) (d : db)
    : list (uuid * team.t) + pg_error :=
  match query_expansion (session user) [rel_teams] with
  | Some err => inr err
  | None =>
      inl (merge_sort team_created_at_ge
             (map_to_list (teams_visible (session user) d)))
  end.

(** [ManageTeamModal.loadMembers] for the team with key [teamId]: the rows
    handed to [setMembers], under their keys, or the error that is logged
    instead. *)
Definition loadMembers (user : option uuid) (teamId : uuid) (d : db)
    : gmap uuid team_member.t + pg_error :=
  match query_expansion (session user) [rel_team_members] with
  | Some err => inr err
  | None =>
      inl (filter (λ kx, team_member.team_id kx.2 = teamId)
                  (team_members_visible (session user) d))
  end.

(** ** Numbers as text *)

(** [n.toString()] for an integer [n] that a JavaScript number holds
    exactly (up to [2^53 - 1] in magnitude): its decimal numeral, with a
    [-] for a negative one. *)
Definition Number_toString (z : Z) : string :=
  NilZero.string_of_int (Z.to_int z).

(** [config.ts]: [parseInt(import.meta.env.V || dflt)]; an unset variable
    is [undefined], and [||] passes over it and over the empty string. *)
Definition parseInt_env (v : option string) (dflt : string) : option Z :=
  parseInt (match v with
            | Some s => if bool_decide (s = ""%string) then dflt else s
            | None => dflt
            end).

Definition defaultPort (VITE_PORT : option string) : option Z :=
  parseInt_env VITE_PORT "3000".

Definition POLL_INTERVAL (VITE_POLL_INTERVAL_MS : option string) : option Z :=
  parseInt_env VITE_POLL_INTERVAL_MS "5000".

(** The value of a decimal numeral read on top of an accumulator. *)
Fixpoint numeral_value (u : Decimal.uint) (acc : Z) : Z :=
  match u with
  | Decimal.Nil => acc
  | Decimal.D0 u => numeral_value u (acc * 10 + 0)
  | Decimal.D1 u => numeral_value u (acc * 10 + 1)
  | Decimal.D2 u => numeral_value u (acc * 10 + 2)
  | Decimal.D3 u => numeral_value u (acc * 10 + 3)
  | Decimal.D4 u => numeral_value u (acc * 10 + 4)
  | Decimal.D5 u => numeral_value u (acc * 10 + 5)
  | Decimal.D6 u => numeral_value u (acc * 10 + 6)
  | Decimal.D7 u => numeral_value u (acc * 10 + 7)
  | Decimal.D8 u => numeral_value u (acc * 10 + 8)
  | Decimal.D9 u => numeral_value u (acc * 10 + 9)
  end.

(** Text that does not carry a numeral on: it is empty or begins with a
    character that is neither a digit nor the [x] of a [0x] prefix. *)
Definition ends_numeral (rest : string) : Prop :=
  match rest with
  | String c _ => is_digit c = false ∧ c ≠ "x"%char ∧ c ≠ "X"%char
  | EmptyString => True
  end.

(** The user on whose behalf a dashboard action runs. *)
Definition op_user (op : producer_op) : option uuid :=
  match op with
  | SendCommand user _ _ _ | DeleteDevice user _ _ | AddDevice user _ _ _ _
  | EditDevice user _ _ _ _ | DeleteTeam user _ _ | CreateTeam user _ _ _
  | AddMember user _ _ _ | RemoveMember user _ => user
  end.

(** Every reference of a row to another table finds its row. *)
Definition references_hold (d : db) : Prop :=
  (∀ k c, commands d !! k = Some c → is_Some (devices d !! command.device_id c))
  ∧ (∀ k x t, devices d !! k = Some x → device.team_id x = Some t →
              is_Some (teams d !! t))
  ∧ (∀ k m, team_members d !! k = Some m →
            is_Some (teams d !! team_member.team_id m)).

(** [UNIQUE(team_id, user_id)] *)
Definition memberships_unique (d : db) : Prop :=
  ∀ k1 k2 m1 m2,
    team_members d !! k1 = Some m1 → team_members d !! k2 = Some m2 →
    team_member.team_id m1 = team_member.team_id m2 →
    team_member.user_id m1 = team_member.user_id m2 → k1 = k2.

(** ** Statement by statement *)

(** [R] holds from [x] to the first element of [l] and from each element
    of [l] to the next. *)
Fixpoint chain {A : Type} (R : A → A → Prop) (x : A) (l : list A) : Prop :=
  match l with
  | [] => True
  | y :: l => R x y ∧ chain R y l
  end.


(** A command has an execution timestamp exactly when it is executed. *)
Definition executed_at_iff_executed_in (d : db) : Prop :=
  ∀ id c, commands d !! id = Some c →
          is_Some (command.executed_at c) ↔ command.status c = executed.

(** From one database to the next the timestamp of a stored command is
    kept, or set together with the status becoming executed. *)
Definition timestamp_step (d d' : db) : Prop :=
  ∀ id c c', commands d !! id = Some c → commands d' !! id = Some c' →
    command.executed_at c' = command.executed_at c
    ∨ (command.status c ≠ executed ∧ command.status c' = executed
       ∧ is_Some (command.executed_at c')).

(** * Properties *)

(** ** Fetching the pending commands of a device *)

Section fetch_pending.

#[local] Instance sent_at_le_total : Total sent_at_le.
Proof. intros a b. unfold sent_at_le. lia. Qed.

#[local] Instance sent_at_le_trans : Transitive sent_at_le.
Proof. intros a b c. unfold sent_at_le. lia. Qed.

Lemma commands_visible_service_role (d : db) :
  commands_visible service_role d = commands d.
Proof. unfold commands_visible. by apply map_filter_id. Qed.

Lemma commands_select_pending_Permutation (DEVICE_ID : uuid) (d : db) :
  commands_select_pending service_role DEVICE_ID d
  ≡ₚ map_to_list
       (filter (λ kc, command.device_id kc.2 = DEVICE_ID
                      ∧ command.status kc.2 = pending) (commands d)).
Proof.
  unfold commands_select_pending.
  by rewrite merge_sort_Permutation, commands_visible_service_role.
Qed.

Lemma elem_of_commands_select_pending (DEVICE_ID : uuid) (d : db) id c :
  (id, c) ∈ commands_select_pending service_role DEVICE_ID d
  ↔ commands d !! id = Some c
    ∧ command.device_id c = DEVICE_ID ∧ command.status c = pending.
Proof.
  rewrite commands_select_pending_Permutation, elem_of_map_to_list.
  by rewrite map_lookup_filter_Some.
Qed.

Lemma NoDup_commands_select_pending (DEVICE_ID : uuid) (d : db) :
  NoDup (commands_select_pending service_role DEVICE_ID d).*1.
Proof.
  rewrite commands_select_pending_Permutation.
  apply NoDup_fst_map_to_list.
Qed.

(** C5.  The client's query returns exactly the pending commands addressed
    to its device, each once, oldest [sent_at] first; when these are three
    commands sent at [t1 < t2 < t3], it returns them in that order. *)
Theorem pending_commands_oldest_first (DEVICE_ID : uuid) (d : db) :
  let fetched := commands_select_pending service_role DEVICE_ID d in
  (∀ id c, (id, c) ∈ fetched
           ↔ commands d !! id = Some c
             ∧ command.device_id c = DEVICE_ID ∧ command.status c = pending)
  ∧ NoDup fetched.*1
  ∧ StronglySorted sent_at_le fetched
  ∧ (∀ k1 c1 k2 c2 k3 c3,
       map_to_list
         (filter (λ kc, command.device_id kc.2 = DEVICE_ID
                        ∧ command.status kc.2 = pending) (commands d))
       ≡ₚ [(k1, c1); (k2, c2); (k3, c3)] →
       command.sent_at c1 < command.sent_at c2 →
       command.sent_at c2 < command.sent_at c3 →
       fetched = [(k1, c1); (k2, c2); (k3, c3)]).
Proof.
  intros fetched. split_and!.
  - intros id c. apply elem_of_commands_select_pending.
  - apply NoDup_commands_select_pending.
  - apply StronglySorted_merge_sort; apply _.
  - intros k1 c1 k2 c2 k3 c3 Hperm H12 H23.
    assert (Hf : fetched ≡ₚ [(k1, c1); (k2, c2); (k3, c3)]).
    { subst fetched. by rewrite commands_select_pending_Permutation. }
    apply (StronglySorted_unique_strong sent_at_le); [ | | | done].
    + intros x y Hx Hy Hxy Hyx. rewrite Hf in Hx.
      unfold sent_at_le in *.
      set_unfold in Hx. set_unfold in Hy.
      destruct Hx as [-> | [-> | [-> | []]]], Hy as [-> | [-> | [-> | []]]];
        simpl in *; (done || lia).
    + apply StronglySorted_merge_sort; apply _.
    + repeat constructor; unfold sent_at_le; simpl; lia.
Qed.

End fetch_pending.

(** ** What a statement does to each table *)

Ltac unfold_statements :=
  unfold execute, sendCommand, deleteDevice, AddDeviceModal_handleSubmit,
    EditDeviceModal_handleSubmit, deleteTeam, CreateTeamModal_handleSubmit,
    addMember, removeMember, commands_insert, commands_update, commands_delete,
    devices_insert, devices_update, devices_delete, teams_insert, teams_update,
    teams_delete, team_members_insert, team_members_update, team_members_delete in *.

Ltac statement_cases :=
  unfold_statements; repeat case_match; simplify_eq/=.

(** A rejected statement changes nothing. *)
Lemma execute_error_unchanged r s d err :
  (execute r s d).2 = Some err → (execute r s d).1 = d.
Proof. destruct s; statement_cases; done. Qed.

Lemma commands_insert_inv r e i d d' :
  commands_insert r e i d = (d', None) →
  let id := default (gen_random_uuid e) (command.i_id i) in
  commands d !! id = None
  ∧ d' = set_commands (<[id := command_of_insert e i]> (commands d)) d.
Proof.
  intros H. statement_cases. split; [|done].
  apply eq_None_not_Some. by eapply bool_decide_eq_false_1.
Qed.

Lemma commands_insert_commands r e i d id c' :
  commands (commands_insert r e i d).1 !! id = Some c' →
  commands d !! id = Some c'
  ∨ (commands d !! id = None ∧ c' = command_of_insert e i).
Proof.
  destruct (commands_insert r e i d) as [d' [err|]] eqn:E.
  - assert (d' = d) as -> by (statement_cases; done). simpl. auto.
  - apply commands_insert_inv in E as [Hfresh ->]. simpl.
    intros [[<- <-] | [? ?]]%lookup_insert_Some; auto.
Qed.

Lemma devices_delete_commands r id d k c' :
  commands (devices_delete r id d).1 !! k = Some c' → commands d !! k = Some c'.
Proof.
  statement_cases; try done. by intros [? _]%map_lookup_filter_Some.
Qed.

Lemma devices_insert_commands r e i d :
  commands (devices_insert r e i d).1 = commands d.
Proof. statement_cases; done. Qed.

Lemma devices_update_commands r id u d :
  commands (devices_update r id u d).1 = commands d.
Proof. statement_cases; done. Qed.

Lemma teams_insert_commands r e i ret d :
  commands (teams_insert r e i ret d).1 = commands d.
Proof. statement_cases; done. Qed.

Lemma teams_delete_commands r id d :
  commands (teams_delete r id d).1 = commands d.
Proof. statement_cases; done. Qed.

Lemma team_members_insert_commands r e i d :
  commands (team_members_insert r e i d).1 = commands d.
Proof. statement_cases; done. Qed.

Lemma team_members_delete_commands r id d :
  commands (team_members_delete r id d).1 = commands d.
Proof. statement_cases; done. Qed.

(** A dashboard action keeps every command it does not delete as it is,
    and a command it creates is the row [sendCommand] builds. *)
Lemma run_producer_commands op d id c' :
  commands (run_producer op d) !! id = Some c' →
  commands d !! id = Some c'
  ∨ (commands d !! id = None
     ∧ command.status c' = pending ∧ command.executed_at c' = None).
Proof.
  destruct op; simpl.
  - unfold sendCommand. destruct user; [|by auto].
    intros [? | [? ->]]%commands_insert_commands; auto.
  - unfold deleteDevice. destruct confirmed; simpl; [|by auto].
    intros ?%devices_delete_commands; auto.
  - unfold AddDeviceModal_handleSubmit. destruct user; [|by auto].
    rewrite devices_insert_commands. auto.
  - unfold EditDeviceModal_handleSubmit.
    rewrite devices_update_commands. auto.
  - unfold deleteTeam. destruct confirmed; simpl; [|by auto].
    rewrite teams_delete_commands. auto.
  - unfold CreateTeamModal_handleSubmit. destruct user; [|by auto].
    destruct (teams_insert _ _ _ _ _) as [d1 [err|]] eqn:E; cbn [fst snd].
    + replace d1 with (teams_insert (session (Some n)) e1
                         (team_insert.mk None name n None) true d).1
        by (by rewrite E).
      rewrite teams_insert_commands. auto.
    + rewrite team_members_insert_commands.
      replace d1 with (teams_insert (session (Some n)) e1
                         (team_insert.mk None name n None) true d).1
        by (by rewrite E).
      rewrite teams_insert_commands. auto.
  - unfold addMember. simpl. auto.
  - unfold removeMember. rewrite team_members_delete_commands. auto.
Qed.

(** *** The desktop client *)

Lemma commands_update_service_role id u d c :
  commands d !! id = Some c →
  command.u_device_id u = None →
  commands_update service_role id u d
  = (set_commands (<[id := command_apply_update u c]> (commands d)) d, None).
Proof.
  intros Hc Hu. unfold commands_update. rewrite Hc. simpl.
  unfold command_apply_update at 1 2. rewrite Hu. simpl.
  rewrite bool_decide_eq_false_2 by (intros ?; done). done.
Qed.

Lemma commands_update_absent id u d :
  commands d !! id = None → commands_update service_role id u d = (d, None).
Proof. intros Hc. unfold commands_update. simpl. by rewrite Hc. Qed.

Lemma run_app r l1 l2 d : run r (l1 ++ l2) d = run r l2 (run r l1 d).
Proof. apply foldl_app. Qed.

Lemma states_app r l1 l2 d :
  states r (l1 ++ l2) d = states r l1 d ++ states r l2 (run r l1 d).
Proof.
  revert d. induction l1 as [|s l1 IH]; intros d; [done|].
  simpl. by rewrite IH.
Qed.

Lemma executeCommand_unfold command ok date d :
  executeCommand command ok date d
  = (commands_update service_role command.1
       (if ok then set_executed date else set_status failed)
       (commands_update service_role command.1 (set_status delivered) d).1).1.
Proof. by destruct ok. Qed.

Lemma executeCommand_spec command ok date d :
  executeCommand command ok date d
  = set_commands (alter (finish ok date) command.1 (commands d)) d.
Proof.
  rewrite executeCommand_unfold. destruct command as [id row]. simpl.
  destruct (commands d !! id) as [c|] eqn:Hc.
  - rewrite (commands_update_service_role id _ d c) by done. simpl.
    destruct ok.
    + erewrite commands_update_service_role;
        [|simpl; apply lookup_insert_eq|done].
      simpl. unfold set_commands. simpl. f_equal.
      rewrite insert_insert_eq. apply map_eq. intros k.
      destruct (decide (k = id)) as [->|].
      * by rewrite lookup_insert_eq, lookup_alter_eq, Hc.
      * by rewrite lookup_insert_ne, lookup_alter_ne.
    + erewrite commands_update_service_role;
        [|simpl; apply lookup_insert_eq|done].
      simpl. unfold set_commands. simpl. f_equal.
      rewrite insert_insert_eq. apply map_eq. intros k.
      destruct (decide (k = id)) as [->|].
      * by rewrite lookup_insert_eq, lookup_alter_eq, Hc.
      * by rewrite lookup_insert_ne, lookup_alter_ne.
  - rewrite (commands_update_absent id _ d) by done. simpl.
    assert (alter (finish ok date) id (commands d) = commands d) as ->.
    { apply map_eq. intros k. destruct (decide (k = id)) as [->|].
      - by rewrite lookup_alter_eq, Hc.
      - by rewrite lookup_alter_ne. }
    destruct ok; rewrite (commands_update_absent id _ d) by done;
      by destruct d.
Qed.

Lemma foldl_executeCommand (pe : poll_env) (l : list (uuid * command.t)) (d : db) :
  NoDup l.*1 →
  let d' := foldl (λ d command,
                     executeCommand command (completes pe command.1)
                       (executed_date pe command.1) d) d l in
  teams d' = teams d ∧ team_members d' = team_members d
  ∧ devices d' = devices d
  ∧ ∀ id, commands d' !! id
          = if decide (id ∈ l.*1)
            then finish (completes pe id) (executed_date pe id) <$> commands d !! id
            else commands d !! id.
Proof.
  revert d. induction l as [|[k row] l IH]; intros d Hnd d'; subst d'.
  - split_and!; try done.
  - rewrite fmap_cons in Hnd. apply NoDup_cons in Hnd as [Hk Hnd].
    cbn [foldl].
    destruct (IH (executeCommand (k, row) (completes pe k) (executed_date pe k) d) Hnd)
      as (Ht & Hm & Hd & Hc).
    cbn [fst] in *.
    split_and!; [by rewrite Ht, executeCommand_spec | by rewrite Hm, executeCommand_spec
                | by rewrite Hd, executeCommand_spec |].
    intros id.
    rewrite Hc, executeCommand_spec. cbn [fst commands set_commands].
    rewrite fmap_cons. cbn [fst].
    destruct (decide (id = k)) as [->|Hne].
    + rewrite decide_False by done.
      rewrite decide_True by (rewrite elem_of_cons; auto).
      by rewrite lookup_alter_eq.
    + rewrite lookup_alter_ne by done.
      destruct (decide (id ∈ l.*1)).
      * by rewrite decide_True by (rewrite elem_of_cons; auto).
      * by rewrite decide_False by (rewrite elem_of_cons; tauto).
Qed.

Lemma run_executeCommand_statements (pe : poll_env) (l : list (uuid * command.t))
    (d : db) :
  run service_role
    (l ≫= λ command,
       executeCommand_statements command (completes pe command.1)
         (executed_date pe command.1)) d
  = foldl (λ d command,
             executeCommand command (completes pe command.1)
               (executed_date pe command.1) d) d l.
Proof.
  revert d. induction l as [|command l IH]; intros d; [done|].
  rewrite bind_cons, run_app, IH. done.
Qed.

Lemma pollCommands_unfold DEVICE_ID pe d :
  pollCommands DEVICE_ID pe d
  = (devices_update service_role DEVICE_ID (online_now (seen_date pe))
       (foldl (λ d command,
                 executeCommand command (completes pe command.1)
                   (executed_date pe command.1) d)
              d (commands_select_pending service_role DEVICE_ID d))).1.
Proof.
  unfold pollCommands, pollCommands_statements.
  by rewrite run_app, run_executeCommand_statements.
Qed.

(** One poll cycle finishes the pending commands of its device and leaves
    every other command alone. *)
Lemma pollCommands_commands DEVICE_ID pe d id :
  commands (pollCommands DEVICE_ID pe d) !! id
  = match commands d !! id with
    | Some c =>
        if decide (command.device_id c = DEVICE_ID ∧ command.status c = pending)
        then Some (finish (completes pe id) (executed_date pe id) c)
        else Some c
    | None => None
    end.
Proof.
  rewrite pollCommands_unfold, devices_update_commands.
  destruct (foldl_executeCommand pe
              (commands_select_pending service_role DEVICE_ID d) d
              (NoDup_commands_select_pending DEVICE_ID d)) as (_ & _ & _ & ->).
  destruct (commands d !! id) as [c|] eqn:Hc; simpl.
  - destruct (decide (command.device_id c = DEVICE_ID ∧ command.status c = pending))
      as [Hp|Hp].
    + rewrite decide_True; [done|].
      apply list_elem_of_fmap. exists (id, c). split; [done|].
      apply elem_of_commands_select_pending. tauto.
    + rewrite decide_False; [done|].
      intros ([k c0] & -> & Hin)%list_elem_of_fmap.
      apply elem_of_commands_select_pending in Hin. simpl in *.
      destruct Hin as (Hk & ? & ?). rewrite Hc in Hk. simplify_eq. tauto.
  - by destruct (decide _).
Qed.

(** ** The statements of a poll cycle, one by one *)

Lemma chain_app {A : Type} (R : A → A → Prop) (x : A) (l1 l2 : list A) :
  chain R x (l1 ++ l2) ↔ chain R x l1 ∧ chain R (default x (last l1)) l2.
Proof.
  revert x. induction l1 as [|y l1 IH]; intros x; [simpl; tauto|].
  cbn [app chain]. rewrite IH.
  assert (default y (last l1) = default x (last (y :: l1))) as ->
    by (rewrite last_cons; by destruct (last l1)).
  tauto.
Qed.

Lemma chain_Forall {A : Type} (R : A → A → Prop) (P : A → Prop) (x : A) (l : list A) :
  (∀ a b, R a b → P a → P b) → P x → chain R x l → Forall P l.
Proof.
  intros HR. revert x. induction l as [|y l IH]; intros x Hx; [constructor|].
  simpl. intros [Hxy Hl]. constructor; eauto.
Qed.

Lemma last_states r l d : default d (last (states r l d)) = run r l d.
Proof.
  revert d. induction l as [|s l IH]; intros d; [done|].
  cbn [states run foldl]. rewrite last_cons.
  specialize (IH (execute r s d).1). unfold run in IH. rewrite <- IH.
  by destruct (last (states r l (execute r s d).1)).
Qed.

Section client_statements.

(** What a relation between databases must admit for it to hold along a
    poll cycle: a statement that leaves the commands alone, the update
    that marks a pending command delivered, and the update that marks a
    delivered command executed, with its date, or failed. *)
Variable R : db → db → Prop.
Hypothesis R_idle : ∀ d d', commands d' = commands d → R d d'.
Hypothesis R_deliver : ∀ d k c,
  commands d !! k = Some c → command.status c = pending →
  R d (set_commands
         (<[k := command_apply_update (set_status delivered) c]> (commands d)) d).
Hypothesis R_finish : ∀ d k c (ok : bool) date,
  commands d !! k = Some c → command.status c = delivered →
  R d (set_commands
         (<[k := command_apply_update
                   (if ok then set_executed date else set_status failed) c]>
            (commands d)) d).

Lemma executeCommand_chain k row ok date d c :
  commands d !! k = Some c → command.status c = pending →
  chain R d (states service_role (executeCommand_statements (k, row) ok date) d).
Proof.
  intros Hc Hp. unfold executeCommand_statements. cbn [states fst chain].
  assert (E1 : execute service_role (UpdateCommand k (set_status delivered)) d
               = (set_commands
                    (<[k := command_apply_update (set_status delivered) c]>
                       (commands d)) d, None))
    by (by apply commands_update_service_role).
  rewrite E1. cbn [fst]. split; [by apply R_deliver|].
  split; [|done].
  assert (E2 : execute service_role
                 (if ok then UpdateCommand k (set_executed date)
                  else UpdateCommand k (set_status failed))
                 (set_commands
                    (<[k := command_apply_update (set_status delivered) c]>
                       (commands d)) d)
               = (set_commands
                    (<[k := command_apply_update
                              (if ok then set_executed date else set_status failed)
                              (command_apply_update (set_status delivered) c)]>
                       (commands
                          (set_commands
                             (<[k := command_apply_update (set_status delivered) c]>
                                (commands d)) d)))
                    (set_commands
                       (<[k := command_apply_update (set_status delivered) c]>
                          (commands d)) d), None)).
  { destruct ok; cbn [execute];
      apply commands_update_service_role; try done;
      cbn [commands set_commands]; apply lookup_insert_eq. }
  rewrite E2. cbn [fst].
  apply R_finish; [cbn [commands set_commands]; apply lookup_insert_eq | done].
Qed.

Lemma executeCommands_chain (pe : poll_env) (l : list (uuid * command.t)) (d : db) :
  NoDup l.*1 →
  (∀ k row, (k, row) ∈ l →
            ∃ c, commands d !! k = Some c ∧ command.status c = pending) →
  chain R d
    (states service_role
       (l ≫= λ command,
          executeCommand_statements command (completes pe command.1)
            (executed_date pe command.1)) d).
Proof.
  revert d. induction l as [|[k row] l IH]; intros d Hnd Hl; [done|].
  rewrite fmap_cons in Hnd. apply NoDup_cons in Hnd as [Hk Hnd].
  rewrite bind_cons, states_app. apply chain_app. split.
  - destruct (Hl k row) as (c & Hc & Hp); [apply elem_of_cons; by left|].
    by eapply executeCommand_chain.
  - rewrite last_states.
    change (run service_role (executeCommand_statements (k, row) _ _) d)
      with (executeCommand (k, row) (completes pe k) (executed_date pe k) d).
    apply IH; [done|].
    intros k' row' Hin.
    destruct (Hl k' row') as (c & Hc & Hp); [apply elem_of_cons; by right|].
    exists c. split; [|done].
    rewrite executeCommand_spec. cbn [commands set_commands fst].
    rewrite lookup_alter_ne; [done|].
    intros <-. apply Hk. apply list_elem_of_fmap. by exists (k, row').
Qed.

(** Along the statements of a poll cycle [R] holds from each database to
    the next. *)
Lemma pollCommands_chain DEVICE_ID pe d :
  chain R d
    (states service_role
       (pollCommands_statements DEVICE_ID pe
          (commands_select_pending service_role DEVICE_ID d)) d).
Proof.
  unfold pollCommands_statements. rewrite states_app. apply chain_app. split.
  - apply executeCommands_chain; [apply NoDup_commands_select_pending|].
    intros k row (Hc & _ & Hp)%elem_of_commands_select_pending. eauto.
  - rewrite last_states. cbn [states chain]. split; [|done].
    apply R_idle. cbn [execute]. apply devices_update_commands.
Qed.

End client_statements.

(** ** The command lifecycle under the repository's own code *)







(** ** The execution timestamp *)

Lemma timestamp_step_idle d d' : commands d' = commands d → timestamp_step d d'.
Proof.
  intros Heq id c c' Hc Hc'. rewrite Heq, Hc in Hc'. injection Hc' as <-. by left.
Qed.

Lemma executed_at_iff_executed_idle d d' :
  commands d' = commands d →
  executed_at_iff_executed_in d → executed_at_iff_executed_in d'.
Proof. intros Heq Hinv id c. rewrite Heq. apply Hinv. Qed.

Lemma run_producer_timestamps op d :
  timestamp_step d (run_producer op d)
  ∧ (executed_at_iff_executed_in d → executed_at_iff_executed_in (run_producer op d)).
Proof.
  split.
  - intros id c c' Hc Hc'.
    apply run_producer_commands in Hc' as [Hc' | (Hc' & _)];
      rewrite Hc in Hc'; simplify_eq. by left.
  - intros Hinv id c' Hc'.
    apply run_producer_commands in Hc' as [Hc' | (_ & Hs & He)]; [by eapply Hinv|].
    rewrite Hs, He. split; [by intros [? ?] | done].
Qed.

(** What one update of the client does to the timestamps: the row under
    [k] is replaced by one that keeps the timestamp, or that is executed
    and has one while the row before was not executed. *)
Lemma timestamps_update d k c c1 :
  commands d !! k = Some c →
  (is_Some (command.executed_at c) ↔ command.status c = executed) →
  (command.executed_at c1 = command.executed_at c ∧ command.status c1 ≠ executed
   ∧ command.status c ≠ executed
   ∨ command.status c ≠ executed ∧ command.status c1 = executed
     ∧ is_Some (command.executed_at c1)) →
  timestamp_step d (set_commands (<[k := c1]> (commands d)) d)
  ∧ (executed_at_iff_executed_in d →
     executed_at_iff_executed_in (set_commands (<[k := c1]> (commands d)) d)).
Proof.
  intros Hc Hrow Hnew. split.
  - intros id c0 c' Hc0. cbn [commands set_commands].
    destruct (decide (id = k)) as [->|Hne].
    + rewrite lookup_insert_eq. intros [= <-]. rewrite Hc in Hc0. injection Hc0 as <-.
      destruct Hnew as [(? & _) | ?]; [by left | by right].
    + rewrite lookup_insert_ne by done. intros Hc'. rewrite Hc0 in Hc'.
      injection Hc' as <-. by left.
  - intros Hinv id c'. cbn [commands set_commands].
    destruct (decide (id = k)) as [->|Hne].
    + rewrite lookup_insert_eq. intros [= <-].
      destruct Hnew as [(He & Hs1 & Hs) | (Hs & Hs1 & He)].
      * rewrite He. split; [by intros ?%Hrow | done].
      * split; done.
    + rewrite lookup_insert_ne by done. apply Hinv.
Qed.

(** C2 (as amended).  Where every command has an execution timestamp
    exactly when it is executed, the repository's own code keeps it so: it
    holds after every dashboard action and after every single statement of
    a poll cycle, so that the update with which [executeCommand] reports
    success sets status and timestamp at once; and from each of these
    databases to the next the timestamp of a command is kept, or set while
    the status becomes executed.  The data store itself does not tie the
    two columns: under the service role an update of a stored command is
    applied as it is written, with either column and without the other. *)
Theorem executed_at_iff_executed (d : db) :
  executed_at_iff_executed_in d →
  (∀ op, executed_at_iff_executed_in (run_producer op d)
         ∧ timestamp_step d (run_producer op d))
  ∧ (∀ DEVICE_ID pe,
       let l := states service_role
                  (pollCommands_statements DEVICE_ID pe
                     (commands_select_pending service_role DEVICE_ID d)) d in
       Forall executed_at_iff_executed_in l
       ∧ chain timestamp_step d l
       ∧ default d (last l) = pollCommands DEVICE_ID pe d)
  ∧ (∀ id c u,
       commands d !! id = Some c → command.u_device_id u = None →
       commands_update service_role id u d
       = (set_commands (<[id := command_apply_update u c]> (commands d)) d, None)).
Proof.
  intros Hinv. split; [|split].
  3: { intros id c u Hc Hu. by apply commands_update_service_role. }
  - intros op. destruct (run_producer_timestamps op d) as [Hstep Hkeep]. auto.
  - intros DEVICE_ID pe l.
    assert (Hchain : chain
              (λ a b, (executed_at_iff_executed_in a → executed_at_iff_executed_in b)
                      ∧ (executed_at_iff_executed_in a → timestamp_step a b))
              d l).
    { apply pollCommands_chain.
      - intros a b Heq. split; [by apply executed_at_iff_executed_idle|].
        intros _. by apply timestamp_step_idle.
      - intros a k c Hc Hp.
        enough (executed_at_iff_executed_in a →
                timestamp_step a
                  (set_commands
                     (<[k := command_apply_update (set_status delivered) c]>
                        (commands a)) a)
                ∧ (executed_at_iff_executed_in a →
                   executed_at_iff_executed_in
                     (set_commands
                        (<[k := command_apply_update (set_status delivered) c]>
                           (commands a)) a))) by tauto.
        intros Ha. apply (timestamps_update a k c); [done | by apply (Ha k) |].
        left. rewrite Hp. by split_and!.
      - intros a k c ok date Hc Hp.
        enough (executed_at_iff_executed_in a →
                timestamp_step a
                  (set_commands
                     (<[k := command_apply_update
                               (if ok then set_executed date else set_status failed) c]>
                        (commands a)) a)
                ∧ (executed_at_iff_executed_in a →
                   executed_at_iff_executed_in
                     (set_commands
                        (<[k := command_apply_update
                                  (if ok then set_executed date
                                   else set_status failed) c]>
                           (commands a)) a))) by tauto.
        intros Ha. apply (timestamps_update a k c); [done | by apply (Ha k) |].
        rewrite Hp. destruct ok; [right | left]; simpl; by split_and!. }
    assert (Hall : Forall executed_at_iff_executed_in l).
    { eapply (chain_Forall _ executed_at_iff_executed_in d l); [|done|exact Hchain].
      intros a b [Hab _]. done. }
    split_and!; [done| |apply last_states].
    clear Hall. revert Hchain Hinv. generalize d. clear.
    induction l as [|y l IH]; intros x; [done|].
    cbn [chain]. intros [[Hxy Hstep] Hl] Hx. split; [by apply Hstep|].
    apply IH; [done | by apply Hxy].
Qed.

Lemma sent_executed_at_iff_executed : executed_at_iff_executed_in sent.
Proof.
  intros id c.
  change (commands sent)
    with (<[2%nat := command.mk 1%nat unmute_zoom "{}" pending 7%nat 200 None]>
            (∅ : gmap nat command.t)).
  intros [[<- <-] | [_ H]]%lookup_insert_Some; [|by rewrite lookup_empty in H].
  simpl. split; [by intros [? ?] | done].
Qed.

Lemma executed_at_iff_executed_witness :
  executed_at_iff_executed_in sent
  ∧ (let l := states service_role
                (pollCommands_statements 1%nat all_complete
                   (commands_select_pending service_role 1%nat sent)) sent in
     Forall executed_at_iff_executed_in l
     ∧ chain timestamp_step sent l
     ∧ default sent (last l) = pollCommands 1%nat all_complete sent).
Proof.
  split; [exact sent_executed_at_iff_executed|].
  exact (proj1 (proj2 (executed_at_iff_executed sent sent_executed_at_iff_executed))
           1%nat all_complete).
Defined.

(** C2 as stated fails on the data store: nothing ties the two columns
    together.  Under the service role, an update marks the executed
    command of [polled] failed and its timestamp stays; so does the first
    update of [executeCommand] when it is handed a row fetched while the
    command was still pending; and an update marks the pending command of
    [sent] executed and no timestamp is set. *)
Lemma update_separates_status_and_executed_at :
  commands_update service_role 2%nat (set_status failed) polled
  = (set_commands
       {[ 2%nat := command.mk 1%nat unmute_zoom "{}" failed 7%nat 200 (Some 300) ]}
       polled, None)
  ∧ commands_update service_role 2%nat (set_status delivered) polled
    = (set_commands
         {[ 2%nat := command.mk 1%nat unmute_zoom "{}" delivered 7%nat 200 (Some 300) ]}
         polled, None)
  ∧ commands_update service_role 2%nat (set_status executed) sent
    = (set_commands
         {[ 2%nat := command.mk 1%nat unmute_zoom "{}" executed 7%nat 200 None ]}
         sent, None).
Proof. split_and!; reflexivity. Qed.

(** ** What a signed-in session is refused *)

Lemma has_membership_true d t u :
  has_membership d t u = true ↔ is_team_member d t u.
Proof.
  unfold has_membership, is_team_member.
  rewrite bool_decide_eq_true, map_Exists_lookup. done.
Qed.

(** Of the statements of a signed-in session only an insert into
    [devices] and an insert into [teams] that does not read the row back
    pass policy expansion; every other one reaches the SELECT policy on
    [team_members] from inside itself. *)
Lemma signed_in_statement_refused uid s d :
  match s with
  | InsertDevice _ _ | InsertTeam _ _ false => True
  | _ => execute (authenticated uid) s d
         = (d, Some (invalid_object_definition "team_members"))
  end.
Proof. destruct s as [| | | | | | ? ? []| | | | |]; done. Qed.

Lemma sendCommand_refused u deviceId commandType e d :
  sendCommand (Some u) deviceId commandType e d
  = (d, Some (invalid_object_definition "team_members")).
Proof. reflexivity. Qed.

Lemma deleteDevice_refused u id d :
  deleteDevice (Some u) true id d
  = (d, Some (invalid_object_definition "team_members")).
Proof. reflexivity. Qed.

Lemma EditDeviceModal_handleSubmit_refused u id name ipAddress port d :
  EditDeviceModal_handleSubmit (Some u) id name ipAddress port d
  = (d, Some (invalid_object_definition "team_members")).
Proof. reflexivity. Qed.

Lemma deleteTeam_refused u teamId d :
  deleteTeam (Some u) true teamId d
  = (d, Some (invalid_object_definition "team_members")).
Proof. reflexivity. Qed.

Lemma CreateTeamModal_handleSubmit_refused u name e1 e2 d :
  CreateTeamModal_handleSubmit (Some u) name e1 e2 d
  = (d, Some (invalid_object_definition "team_members")).
Proof. reflexivity. Qed.

Lemma removeMember_refused u memberId d :
  removeMember (Some u) memberId d
  = (d, Some (invalid_object_definition "team_members")).
Proof. reflexivity. Qed.

Lemma addMember_user_not_found user teamId newMemberEmail e d :
  addMember user teamId newMemberEmail e d = (d, None).
Proof. reflexivity. Qed.

(** ** Sending a command *)

(** C3.  The code does not do what the claim says: [sendCommand] of a
    signed-in user is refused whoever the user is, the owner of the device
    and the members of its team included.  The INSERT policies on
    [commands] query [devices], the SELECT policy on [devices] queries
    [team_members], and the SELECT policy on [team_members] queries
    [team_members] again; the data store answers 42P17 and stores no
    command.  So it is for user 7 and the device that user registered. *)
Theorem sendCommand_is_refused :
  (∀ u deviceId commandType e d,
     sendCommand (Some u) deviceId commandType e d
     = (d, Some (invalid_object_definition "team_members")))
  ∧ owner_or_team_member registered 7%nat 1%nat
  ∧ sendCommand (Some 7%nat) 1%nat unmute_zoom (mkEnv 2 200) registered
    = (registered, Some (invalid_object_definition "team_members")).
Proof.
  split; [apply sendCommand_refused|]. split; [|reflexivity].
  eexists. split; [reflexivity | left; reflexivity].
Qed.

(** ** Device status and last-seen *)

Lemma commands_insert_devices r e i d :
  devices (commands_insert r e i d).1 = devices d.
Proof. statement_cases; done. Qed.

Lemma teams_insert_devices r e i ret d :
  devices (teams_insert r e i ret d).1 = devices d.
Proof. statement_cases; done. Qed.

Lemma team_members_insert_devices r e i d :
  devices (team_members_insert r e i d).1 = devices d.
Proof. statement_cases; done. Qed.

Lemma team_members_delete_devices r id d :
  devices (team_members_delete r id d).1 = devices d.
Proof. statement_cases; done. Qed.

Lemma devices_delete_devices r id d k dev' :
  devices (devices_delete r id d).1 !! k = Some dev' → devices d !! k = Some dev'.
Proof.
  statement_cases; try done. by intros [_ ?]%lookup_delete_Some.
Qed.

Lemma teams_delete_devices r id d k :
  devices (teams_delete r id d).1 !! k = devices d !! k
  ∨ devices (teams_delete r id d).1 !! k = clear_team id <$> devices d !! k.
Proof.
  statement_cases; auto. right. apply lookup_fmap.
Qed.

Lemma devices_insert_devices r e i d k dev' :
  devices (devices_insert r e i d).1 !! k = Some dev' →
  devices d !! k = Some dev'
  ∨ (devices d !! k = None
     ∧ ∃ p, device.i_port i = Some p ∧ dev' = device_of_insert e i p).
Proof.
  statement_cases; auto.
  intros [[<- <-] | [? ?]]%lookup_insert_Some; auto.
  right. split; [|by eexists].
  apply eq_None_not_Some. by eapply bool_decide_eq_false_1.
Qed.

Lemma devices_update_devices r id u d k dev' :
  devices (devices_update r id u d).1 !! k = Some dev' →
  devices d !! k = Some dev'
  ∨ (k = id ∧ ∃ old p, devices d !! id = Some old
                       ∧ dev' = device_apply_update u p old).
Proof.
  statement_cases; auto.
  intros [[<- <-] | [? ?]]%lookup_insert_Some; auto.
  right. split; [done|]. by do 2 eexists.
Qed.

Lemma clear_team_status t x :
  device.status (clear_team t x) = device.status x
  ∧ device.last_seen (clear_team t x) = device.last_seen x.
Proof. unfold clear_team. by case_bool_decide. Qed.

(** C4.  After any action of the dashboard, a device that was there before
    has the [status] and [last_seen] it had, and a device the action
    created has the creation defaults, [unknown] and no [last_seen]. *)
Theorem producer_keeps_status_and_last_seen (op : producer_op) (d : db)
    (id : uuid) (dev' : device.t) :
  devices (run_producer op d) !! id = Some dev' →
  match devices d !! id with
  | Some dev =>
      device.status dev' = device.status dev
      ∧ device.last_seen dev' = device.last_seen dev
  | None => device.status dev' = unknown ∧ device.last_seen dev' = None
  end.
Proof.
  assert (Hsame : devices d !! id = Some dev' →
    match devices d !! id with
    | Some dev =>
        device.status dev' = device.status dev
        ∧ device.last_seen dev' = device.last_seen dev
    | None => device.status dev' = unknown ∧ device.last_seen dev' = None
    end) by (by intros ->).
  destruct op; simpl.
  - unfold sendCommand. destruct user; [|done].
    by rewrite commands_insert_devices.
  - unfold deleteDevice. destruct confirmed; simpl; [|done].
    intros ?%devices_delete_devices. by apply Hsame.
  - unfold AddDeviceModal_handleSubmit. destruct user; [|done].
    intros [? | (-> & p & _ & ->)]%devices_insert_devices; [by apply Hsame | done].
  - unfold EditDeviceModal_handleSubmit.
    intros [? | (-> & old & p & -> & ->)]%devices_update_devices;
      [by apply Hsame | done].
  - unfold deleteTeam. destruct confirmed; simpl; [|done].
    destruct (teams_delete_devices (session user) teamId d id) as [-> | ->]; [done|].
    destruct (devices d !! id) as [dev|]; [|done].
    intros [= <-]. apply clear_team_status.
  - unfold CreateTeamModal_handleSubmit. destruct user; [|done].
    destruct (teams_insert _ _ _ _ _) as [d1 [err|]] eqn:E; cbn [fst snd].
    + replace d1 with (teams_insert (session (Some n)) e1
                         (team_insert.mk None name n None) true d).1
        by (by rewrite E).
      by rewrite teams_insert_devices.
    + rewrite team_members_insert_devices.
      replace d1 with (teams_insert (session (Some n)) e1
                         (team_insert.mk None name n None) true d).1
        by (by rewrite E).
      by rewrite teams_insert_devices.
  - exact Hsame.
  - unfold removeMember. by rewrite team_members_delete_devices.
Qed.

(** The desktop client is the one that writes the two columns: its poll
    cycle marks its device online and stamps [last_seen]. *)
Lemma pollCommands_marks_online DEVICE_ID pe d dev :
  devices d !! DEVICE_ID = Some dev →
  devices_port_check (device.port dev) = true →
  ∃ dev', devices (pollCommands DEVICE_ID pe d) !! DEVICE_ID = Some dev'
          ∧ device.status dev' = online
          ∧ device.last_seen dev' = Some (seen_date pe).
Proof.
  intros Hdev Hport. rewrite pollCommands_unfold.
  destruct (foldl_executeCommand pe
              (commands_select_pending service_role DEVICE_ID d) d
              (NoDup_commands_select_pending DEVICE_ID d)) as (_ & _ & Hd & _).
  unfold devices_update. rewrite Hd, Hdev. simpl. rewrite Hport. simpl.
  rewrite bool_decide_eq_false_2 by (intros ?; done). simpl.
  eexists. by rewrite lookup_insert_eq.
Qed.

(** ** Numerals written and read back *)

Lemma read_digits_numeral (u : Decimal.uint) (rest : string) (acc : Z) (n : nat) :
  read_digits (String.append (NilEmpty.string_of_uint u) rest) acc n
  = read_digits rest (numeral_value u acc) (n + Decimal.nb_digits u)%nat.
Proof.
  revert acc n.
  induction u as [|u IH|u IH|u IH|u IH|u IH|u IH|u IH|u IH|u IH|u IH]; intros acc n;
    cbn [NilEmpty.string_of_uint Decimal.nb_digits numeral_value].
  1: by rewrite Nat.add_0_r.
  all: change (String.append (String ?c ?s) rest) with (String c (String.append s rest)).
  all: cbn [read_digits].
  all: match goal with
       | |- context [is_digit ?c] => change (is_digit c) with true
       end; cbv iota.
  all: rewrite IH, Nat.add_succ_r; reflexivity.
Qed.

Lemma string_append_empty (s : string) : String.append s "" = s.
Proof.
  induction s as [|c s IH]; [done|].
  change (String.append (String c s) "") with (String c (String.append s "")).
  by rewrite IH.
Qed.

Lemma numeral_value_positive (u : Decimal.uint) (p : positive) :
  numeral_value u (Z.pos p) = Z.pos (Pos.of_uint_acc u p).
Proof.
  revert p.
  induction u as [|u IH|u IH|u IH|u IH|u IH|u IH|u IH|u IH|u IH|u IH]; intros p;
    cbn [numeral_value Pos.of_uint_acc]; [done|..].
  all: rewrite <- IH; f_equal; lia.
Qed.

Lemma numeral_value_of_uint (u : Decimal.uint) :
  numeral_value u 0 = Z.of_N (Pos.of_uint u).
Proof.
  induction u as [|u IH|u IH|u IH|u IH|u IH|u IH|u IH|u IH|u IH|u IH];
    cbn [numeral_value Pos.of_uint Z.of_N]; [done|exact IH|..].
  all: rewrite <- numeral_value_positive; reflexivity.
Qed.

Lemma numeral_value_to_uint (p : positive) :
  numeral_value (Pos.to_uint p) 0 = Z.pos p.
Proof. by rewrite numeral_value_of_uint, DecimalPos.Unsigned.of_to. Qed.

(** A numeral begins with a digit. *)
Lemma parseInt_digit_first (c : ascii) (s' : string) :
  is_digit c = true →
  (c = "0"%char →
   match s' with
   | String x _ => x ≠ "x"%char ∧ x ≠ "X"%char
   | EmptyString => True
   end) →
  parseInt (String c s')
  = (if bool_decide ((read_digits (String c s') 0 0).1.2 = 0%nat) then None
     else Some (read_digits (String c s') 0 0).1.1).
Proof.
  intros Hd Hx. unfold parseInt.
  destruct c as [[] [] [] [] [] [] [] []];
    try (vm_compute in Hd; discriminate Hd); clear Hd.
  all: cbn [trim_start].
  all: match goal with
       | |- context [is_whitespace ?c] => change (is_whitespace c) with false
       end; cbv beta iota zeta.
  all: try (by destruct (read_digits _ 0 0%nat) as [[v n] r]).
  destruct s' as [|x r]; [by destruct (read_digits _ 0 0%nat) as [[v n] r']|].
  destruct (Hx eq_refl) as [H1 H2].
  rewrite bool_decide_eq_false_2 by (intros [?|?]; done).
  by destruct (read_digits _ 0 0%nat) as [[v n] r'].
Qed.

Lemma parseInt_minus_digit_first (c : ascii) (s' : string) :
  is_digit c = true →
  (c = "0"%char →
   match s' with
   | String x _ => x ≠ "x"%char ∧ x ≠ "X"%char
   | EmptyString => True
   end) →
  parseInt (String "-" (String c s'))
  = (if bool_decide ((read_digits (String c s') 0 0).1.2 = 0%nat) then None
     else Some (- (read_digits (String c s') 0 0).1.1)).
Proof.
  intros Hd Hx. unfold parseInt. cbn [trim_start].
  change (is_whitespace "-") with false. cbv beta iota zeta.
  destruct c as [[] [] [] [] [] [] [] []];
    try (vm_compute in Hd; discriminate Hd); clear Hd.
  all: try (by destruct (read_digits _ 0 0%nat) as [[v n] r]).
  destruct s' as [|x r]; [by destruct (read_digits _ 0 0%nat) as [[v n] r']|].
  destruct (Hx eq_refl) as [H1 H2].
  rewrite bool_decide_eq_false_2 by (intros [?|?]; done).
  by destruct (read_digits _ 0 0%nat) as [[v n] r'].
Qed.

Lemma read_digits_stops (rest : string) (acc : Z) (n : nat) :
  ends_numeral rest → read_digits rest acc n = (acc, n, rest).
Proof.
  destruct rest as [|c r]; [done|]. intros (Hc & _). cbn [read_digits]. by rewrite Hc.
Qed.

Lemma numeral_then_rest (u : Decimal.uint) (rest : string) :
  u ≠ Decimal.Nil → ends_numeral rest →
  ∃ c s', String.append (NilEmpty.string_of_uint u) rest = String c s'
          ∧ is_digit c = true
          ∧ (c = "0"%char →
             match s' with
             | String x _ => x ≠ "x"%char ∧ x ≠ "X"%char
             | EmptyString => True
             end)
          ∧ read_digits (String c s') 0 0
            = (numeral_value u 0, Decimal.nb_digits u, rest).
Proof.
  intros Hu Hrest.
  assert (Hread : read_digits (String.append (NilEmpty.string_of_uint u) rest) 0 0
                  = (numeral_value u 0, Decimal.nb_digits u, rest))
    by (by rewrite read_digits_numeral, read_digits_stops).
  destruct u as [|u|u|u|u|u|u|u|u|u|u]; [done|..].
  2-10: do 2 eexists; split_and!; [reflexivity | reflexivity | discriminate | exact Hread].
  do 2 eexists. split_and!; [reflexivity | reflexivity | | exact Hread].
  intros _. destruct u as [|u|u|u|u|u|u|u|u|u|u];
    cbn [NilEmpty.string_of_uint];
    try (change (String.append (String ?c ?s) rest) with (String c (String.append s rest));
         split; discriminate).
  change (String.append "" rest) with rest.
  destruct rest as [|c r]; [done|]. by destruct Hrest as (_ & ? & ?).
Qed.

Lemma nb_digits_nonzero (u : Decimal.uint) :
  u ≠ Decimal.Nil → Decimal.nb_digits u ≠ 0%nat.
Proof. by destruct u. Qed.

Lemma parseInt_numeral (u : Decimal.uint) (rest : string) :
  u ≠ Decimal.Nil → ends_numeral rest →
  parseInt (String.append (NilEmpty.string_of_uint u) rest) = Some (numeral_value u 0)
  ∧ parseInt (String "-" (String.append (NilEmpty.string_of_uint u) rest))
    = Some (- numeral_value u 0).
Proof.
  intros Hu Hrest.
  destruct (numeral_then_rest u rest Hu Hrest) as (c & s' & -> & Hd & Hx & Hread).
  rewrite parseInt_digit_first, parseInt_minus_digit_first by done.
  rewrite Hread. simpl.
  by rewrite bool_decide_eq_false_2 by (by apply nb_digits_nonzero).
Qed.

Lemma parseInt_toString_then (z : Z) (rest : string) :
  ends_numeral rest →
  parseInt (String.append (Number_toString z) rest) = Some z.
Proof.
  intros Hrest. unfold Number_toString. destruct z as [|p|p].
  - change (String.append (NilZero.string_of_int (Z.to_int 0)) rest)
      with (String.append (NilEmpty.string_of_uint (Decimal.D0 Decimal.Nil)) rest).
    by rewrite (proj1 (parseInt_numeral (Decimal.D0 Decimal.Nil) rest
                         ltac:(done) Hrest)).
  - cbn [Z.to_int NilZero.string_of_int]. unfold NilZero.string_of_uint.
    pose proof (DecimalPos.Unsigned.to_uint_nonnil p) as Hnil.
    destruct (Pos.to_uint p) eqn:E; [done|..];
      rewrite <- E in *;
      rewrite (proj1 (parseInt_numeral _ rest Hnil Hrest));
      by rewrite numeral_value_to_uint.
  - cbn [Z.to_int NilZero.string_of_int]. unfold NilZero.string_of_uint.
    pose proof (DecimalPos.Unsigned.to_uint_nonnil p) as Hnil.
    destruct (Pos.to_uint p) eqn:E; [done|..];
      rewrite <- E in *;
      change (String.append (String "-" ?s) rest) with (String "-" (String.append s rest));
      rewrite (proj2 (parseInt_numeral _ rest Hnil Hrest));
      by rewrite numeral_value_to_uint.
Qed.

Lemma parseInt_toString (z : Z) : parseInt (Number_toString z) = Some z.
Proof.
  rewrite <- (string_append_empty (Number_toString z)).
  by apply parseInt_toString_then.
Qed.

(** [parseInt] reads back what [toString] wrote, for every integer a
    number holds exactly, zero and the negative ones included, and goes on
    doing so when the numeral is followed by text that does not begin with
    a digit (or with the [x] of a hexadecimal prefix): the rest of the
    text is ignored. *)

Lemma read_digits_whole_numeral (u : Decimal.uint) :
  read_digits (NilEmpty.string_of_uint u) 0 0
  = (numeral_value u 0, Decimal.nb_digits u, ""%string).
Proof.
  pose proof (read_digits_numeral u "" 0 0) as H.
  by rewrite string_append_empty in H.
Qed.

Lemma number_value_numeral (u : Decimal.uint) :
  u ≠ Decimal.Nil →
  number_value (NilEmpty.string_of_uint u) = Some (inject_Z (numeral_value u 0 * 1)).
Proof.
  intros Hu. pose proof (read_digits_whole_numeral u) as Hread.
  pose proof (nb_digits_nonzero u Hu) as Hn.
  destruct u; [done|..]; unfold number_value;
    cbn [NilEmpty.string_of_uint] in *; cbv beta iota zeta;
    rewrite Hread; cbv beta iota zeta;
    rewrite (bool_decide_eq_false_2 _ Hn); reflexivity.
Qed.

Lemma Qred_den_1 (n : Z) : Qden (Qred (n # 1)) = 1%positive.
Proof.
  unfold Qred.
  pose proof (Z.ggcd_gcd n 1) as Hg.
  pose proof (Z.ggcd_correct_divisors n 1) as Hd.
  destruct (Z.ggcd n 1) as [g [aa bb]]. simpl in *.
  rewrite Z.gcd_1_r in Hg. subst g. destruct Hd as [_ Hd].
  assert (bb = 1) as -> by lia. done.
Qed.

Lemma number_required_whole (lo hi m : Z) :
  lo ≤ m ≤ hi → 
  (if Qle_bool (inject_Z lo) (inject_Z (m * 1)) then [] else [rangeUnderflow])
  ++ (if Qle_bool (inject_Z (m * 1)) (inject_Z hi) then [] else [rangeOverflow])
  ++ (if is_integer (Qminus (inject_Z (m * 1)) (inject_Z lo)) then []
      else [stepMismatch]) = [].
Proof.
  intros Hm.
  assert (Qle_bool (inject_Z lo) (inject_Z (m * 1)) = true) as ->.
  { apply Qle_bool_iff. rewrite <- Zle_Qle. lia. }
  assert (Qle_bool (inject_Z (m * 1)) (inject_Z hi) = true) as ->.
  { apply Qle_bool_iff. rewrite <- Zle_Qle. lia. }
  assert (is_integer (Qminus (inject_Z (m * 1)) (inject_Z lo)) = true) as ->; [|done].
  unfold is_integer. apply bool_decide_eq_true. apply Qred_den_1.
Qed.

Lemma Number_toString_positive (p : Z) :
  0 < p →
  ∃ u, u ≠ Decimal.Nil ∧ Number_toString p = NilEmpty.string_of_uint u
       ∧ numeral_value u 0 = p.
Proof.
  intros Hp. destruct p as [|q|q]; [lia| |lia].
  exists (Pos.to_uint q).
  pose proof (DecimalPos.Unsigned.to_uint_nonnil q) as Hnil.
  split_and!; [done| |apply numeral_value_to_uint].
  unfold Number_toString. cbn [Z.to_int NilZero.string_of_int].
  unfold NilZero.string_of_uint. by destruct (Pos.to_uint q).
Qed.

(** A name, an address and a port from 1 to 65535 typed as a plain decimal
    numeral pass the Add Device form, and what the signed-in user typed is
    what is stored (under the key drawn, which is not in use): that name,
    address and port, the user as owner, no team, status unknown. *)

Lemma number_value_minus_numeral (u : Decimal.uint) :
  u ≠ Decimal.Nil →
  number_value (String "-" (NilEmpty.string_of_uint u))
  = Some (inject_Z (- numeral_value u 0 * 1)).
Proof.
  intros Hu. pose proof (read_digits_whole_numeral u) as Hread.
  pose proof (nb_digits_nonzero u Hu) as Hn.
  unfold number_value. cbv beta iota zeta.
  rewrite Hread. cbv beta iota zeta.
  rewrite (bool_decide_eq_false_2 _ Hn). reflexivity.
Qed.

(** The number control holds the integer whose numeral was typed. *)
Lemma number_value_toString (p : Z) :
  number_value (Number_toString p) = Some (inject_Z (p * 1)).
Proof.
  destruct p as [|q|q].
  - reflexivity.
  - destruct (Number_toString_positive (Z.pos q)) as (u & Hu & -> & Hv); [lia|].
    by rewrite number_value_numeral, Hv.
  - unfold Number_toString. cbn [Z.to_int NilZero.string_of_int].
    unfold NilZero.string_of_uint.
    pose proof (DecimalPos.Unsigned.to_uint_nonnil q) as Hnil.
    destruct (Pos.to_uint q) eqn:E; [done|..];
      rewrite <- E in *;
      rewrite (number_value_minus_numeral _ Hnil);
      by rewrite numeral_value_to_uint.
Qed.

(** ** Deleting a device *)

Lemma devices_delete_service_role id d dev :
  devices d !! id = Some dev →
  devices_delete service_role id d
  = (set_commands (filter (λ kc, command.device_id kc.2 ≠ id) (commands d))
       (set_devices (delete id (devices d)) d), None).
Proof. intros Hdev. unfold devices_delete. simpl. by rewrite Hdev. Qed.

Lemma commands_select_pending_none r deviceId d :
  (∀ k c, commands d !! k = Some c → command.device_id c ≠ deviceId) →
  commands_select_pending r deviceId d = [].
Proof.
  intros Hnone. unfold commands_select_pending.
  assert (filter (λ kc : uuid * command.t,
                    command.device_id kc.2 = deviceId
                    ∧ command.status kc.2 = pending) (commands_visible r d) = ∅)
    as ->; [|by rewrite map_to_list_empty].
  apply map_empty. intros k. apply map_lookup_filter_None. right.
  intros c Hc [Hd _]. simpl in *.
  unfold commands_visible in Hc. apply map_lookup_filter_Some in Hc as [Hc _].
  by eapply Hnone.
Qed.

(** C6 (as amended).  [deleteDevice] by anyone but the owner deletes
    nothing, and no error comes back: the DELETE policy leaves the row out
    of the statement instead of rejecting the statement.  By the owner it
    deletes the device and every command that refers to it, so that
    fetching the pending commands of the device then returns nothing. *)
(** C6.  The code does not do what the claim says: [deleteDevice] of a
    signed-in user is refused whoever the user is, the owner included.
    The DELETE reads the row it deletes, which brings in the SELECT
    policies on [devices]; they query [team_members], whose SELECT policy
    queries [team_members] again, and the data store answers 42P17.  The
    device and its commands stay; so it is for user 7 and the device of
    [polled], which that user owns.  The cascade the claim describes is in
    the schema: a delete that goes through, as under the service role,
    removes the device and every command that refers to it, and fetching
    the pending commands of the device then returns nothing. *)
Theorem deleteDevice_is_refused :
  (∀ u id d,
     deleteDevice (Some u) true id d
     = (d, Some (invalid_object_definition "team_members")))
  ∧ devices polled !! 1%nat
    = Some (device.mk "Prime" "192.168.1.100" 3000 7%nat None online (Some 400) 100)
  ∧ deleteDevice (Some 7%nat) true 1%nat polled
    = (polled, Some (invalid_object_definition "team_members"))
  ∧ (∀ id d dev,
       devices d !! id = Some dev →
       let d' := (devices_delete service_role id d).1 in
       devices d' = delete id (devices d)
       ∧ (∀ k c, commands d' !! k = Some c
                 ↔ commands d !! k = Some c ∧ command.device_id c ≠ id)
       ∧ commands_select_pending service_role id d' = []).
Proof.
  split; [apply deleteDevice_refused|].
  split; [reflexivity|]. split; [reflexivity|].
  intros id d dev Hdev d'. subst d'.
  rewrite (devices_delete_service_role id d dev Hdev). simpl.
  assert (Hc : ∀ k c,
    filter (λ kc : uuid * command.t, command.device_id kc.2 ≠ id) (commands d) !! k
      = Some c ↔ commands d !! k = Some c ∧ command.device_id c ≠ id)
    by (intros k c; by rewrite map_lookup_filter_Some).
  split_and!; [done | exact Hc |].
  apply commands_select_pending_none. simpl.
  intros k c Hk. by apply Hc in Hk as [_ ?].
Qed.

Lemma deleteDevice_is_refused_witness :
  let d' := (devices_delete service_role 1%nat polled).1 in
  devices d' = delete 1%nat (devices polled)
  ∧ (∀ k c, commands d' !! k = Some c
            ↔ commands polled !! k = Some c ∧ command.device_id c ≠ 1%nat)
  ∧ commands_select_pending service_role 1%nat d' = [].
Proof.
  exact (proj2 (proj2 (proj2 deleteDevice_is_refused)) 1%nat polled _ eq_refl).
Defined.

(** ** Registering a device *)

Lemma devices_port_check_true p :
  devices_port_check p = true ↔ 1 ≤ p ≤ 65535.
Proof.
  unfold devices_port_check.
  rewrite andb_true_iff, !bool_decide_eq_true. lia.
Qed.

Lemma clear_team_port t x : device.port (clear_team t x) = device.port x.
Proof. unfold clear_team. by case_bool_decide. Qed.

(** No statement, under any role, stores a port the CHECK rejects. *)
Lemma execute_preserves_port_check r s d :
  (∀ id dev, devices d !! id = Some dev →
             devices_port_check (device.port dev) = true) →
  ∀ id dev, devices (execute r s d).1 !! id = Some dev →
            devices_port_check (device.port dev) = true.
Proof.
  intros Hinv id dev.
  destruct s; statement_cases; eauto.
  - intros [[<- <-] | [? ?]]%lookup_insert_Some; [|by eauto].
    simpl. by apply negb_false_iff.
  - intros [[<- <-] | [? ?]]%lookup_insert_Some; [|by eauto].
    simpl. by apply negb_false_iff.
  - intros [_ ?]%lookup_delete_Some. eauto.
  - rewrite lookup_fmap. destruct (devices d !! id) as [x|] eqn:Hx; [|done].
    intros [= <-]. rewrite clear_team_port. eauto.
Qed.

Lemma number_required_range (port : string) (q : Q) :
  number_value port = Some q →
  ¬ (inject_Z 1 <= q ∧ q <= inject_Z 65535)%Q →
  rangeUnderflow ∈ number_required 1 65535 port
  ∨ rangeOverflow ∈ number_required 1 65535 port.
Proof.
  intros Hq Hout. unfold number_required. rewrite Hq.
  destruct (Qle_bool (inject_Z 1) q) eqn:Hlo.
  - destruct (Qle_bool q (inject_Z 65535)) eqn:Hhi.
    + apply Qle_bool_iff in Hlo, Hhi. tauto.
    + right. simpl. apply elem_of_cons. by left.
  - left. simpl. apply elem_of_cons. by left.
Qed.

Lemma device_form_blocked (name ipAddress port : string) (x : string * validity) :
  x ∈ device_form_validity name ipAddress port →
  ∀ user e d,
    AddDeviceModal_submit user name ipAddress port e d
    = blocked (device_form_validity name ipAddress port).
Proof.
  intros Hx user e d. unfold AddDeviceModal_submit.
  destruct (device_form_validity name ipAddress port); [|done].
  by apply elem_of_nil in Hx.
Qed.

(** C7.  Every device the data store holds, whatever inserts, updates and
    deletes it was sent, has a port from 1 to 65535.  Submitting the Add Device form with
    the numeral of an integer outside that range as port is stopped at the
    port control (range underflow or overflow) before any statement is
    sent; and if [handleSubmit] runs on such a port all the same, the
    insert is rejected, by the CHECK on [port] when the number fits the
    column type and by the type otherwise, and the database stays as it
    was. *)
Theorem port_between_1_and_65535 :
  (∀ d, rtc statement_step empty_db d →
        ∀ id dev, devices d !! id = Some dev → 1 ≤ device.port dev ≤ 65535)
  ∧ (∀ user name ipAddress e d p,
       Z.abs p ≤ 2 ^ 53 - 1 →
       ¬ (1 ≤ p ≤ 65535) →
       ∃ invalid,
         AddDeviceModal_submit user name ipAddress (Number_toString p) e d
         = blocked invalid
         ∧ (("port"%string, rangeUnderflow) ∈ invalid
            ∨ ("port"%string, rangeOverflow) ∈ invalid))
  ∧ (∀ u name ipAddress e d p,
       Z.abs p ≤ 2 ^ 53 - 1 →
       ¬ (1 ≤ p ≤ 65535) →
       AddDeviceModal_handleSubmit (Some u) name ipAddress (Number_toString p) e d
       = (d, Some (if int4 p then check_violation "devices_port_check"
                   else data_exception "integer"))).
Proof.
  split_and!.
  - intros d Hreach.
    enough (∀ id dev, devices d !! id = Some dev →
                      devices_port_check (device.port dev) = true) as Hinv
      by (intros id dev Hdev; by apply devices_port_check_true, (Hinv id)).
    revert d Hreach. apply (rtc_ind_r (λ d, ∀ id dev, devices d !! id = Some dev →
      devices_port_check (device.port dev) = true)).
    + intros id dev Hdev. simpl in Hdev. by rewrite lookup_empty in Hdev.
    + intros d1 d2 _ Hstep IH. destruct Hstep as [r s d1].
      by apply execute_preserves_port_check.
  - intros user name ipAddress e d p _ Hout.
    set (port := Number_toString p).
    exists (device_form_validity name ipAddress port).
    assert (Hin : ("port"%string, rangeUnderflow) ∈ device_form_validity name ipAddress port
                  ∨ ("port"%string, rangeOverflow) ∈ device_form_validity name ipAddress port).
    { unfold device_form_validity. rewrite !elem_of_app.
      destruct (number_required_range port (inject_Z (p * 1))) as [H|H];
        [apply number_value_toString
        |rewrite <- !Zle_Qle; lia
        |left; right; right; apply list_elem_of_fmap; eauto
        |right; right; right; apply list_elem_of_fmap; eauto]. }
    split; [|done].
    destruct Hin as [Hin|Hin]; by eapply device_form_blocked.
  - intros u name ipAddress e d p _ Hout.
    unfold AddDeviceModal_handleSubmit, devices_insert. simpl.
    rewrite parseInt_toString. simpl.
    destruct (int4 p); simpl; [|reflexivity].
    unfold devices_insert_check, users_can_create_devices. simpl.
    rewrite (bool_decide_eq_true_2 (u = u)) by done. simpl.
    assert (devices_port_check p = false) as ->; [|done].
    apply not_true_iff_false. by rewrite devices_port_check_true.
Qed.

Lemma port_between_1_and_65535_witness :
  (1 ≤ 3000 ≤ 65535)
  ∧ (∃ invalid,
       AddDeviceModal_submit (Some 7%nat) "Prime" "192.168.1.100" "0" (mkEnv 1 100)
         empty_db = blocked invalid
       ∧ (("port"%string, rangeUnderflow) ∈ invalid
          ∨ ("port"%string, rangeOverflow) ∈ invalid))
  ∧ (∃ invalid,
       AddDeviceModal_submit (Some 7%nat) "Prime" "192.168.1.100" "65536" (mkEnv 1 100)
         empty_db = blocked invalid
       ∧ (("port"%string, rangeUnderflow) ∈ invalid
          ∨ ("port"%string, rangeOverflow) ∈ invalid))
  ∧ AddDeviceModal_handleSubmit (Some 7%nat) "Prime" "192.168.1.100" "0" (mkEnv 1 100)
      empty_db
    = (empty_db, Some (check_violation "devices_port_check"))
  ∧ AddDeviceModal_handleSubmit (Some 7%nat) "Prime" "192.168.1.100" "65536"
      (mkEnv 1 100) empty_db
    = (empty_db, Some (check_violation "devices_port_check")).
Proof.
  destruct port_between_1_and_65535 as (Hinv & Hform & Hhandler).
  split; [|split; [|split; [|split]]].
  - refine (Hinv registered _ 1%nat
              (device.mk "Prime" "192.168.1.100" 3000 7%nat None unknown None 100)
              eq_refl).
    eapply rtc_l; [|apply rtc_refl].
    exact (step_statement (authenticated 7)
             (InsertDevice (mkEnv 1 100)
                (device.mkInsert None "Prime" "192.168.1.100" (Some 3000) 7%nat
                   None None None None)) empty_db).
  - apply (Hform (Some 7%nat) "Prime"%string "192.168.1.100"%string
             (mkEnv 1 100) empty_db 0); lia.
  - apply (Hform (Some 7%nat) "Prime"%string "192.168.1.100"%string
             (mkEnv 1 100) empty_db 65536); lia.
  - apply (Hhandler 7%nat "Prime"%string "192.168.1.100"%string
             (mkEnv 1 100) empty_db 0); lia.
  - apply (Hhandler 7%nat "Prime"%string "192.168.1.100"%string
             (mkEnv 1 100) empty_db 65536); lia.
Defined.

(** C8.  Submitting the Add Device form with an empty name or an empty
    address is stopped at that control (value missing) and the database
    stays as it was; a submission that goes through for a signed-in user
    creates one device, under a key not in use, with the name, address and
    port entered, that user as owner, no team, status [unknown] and no
    [last_seen]. *)
Theorem registration_validates_and_defaults :
  (∀ user name ipAddress port e d,
     name = ""%string ∨ ipAddress = ""%string →
     ∃ invalid,
       AddDeviceModal_submit user name ipAddress port e d = blocked invalid
       ∧ (("name"%string, valueMissing) ∈ invalid
          ∨ ("ip_address"%string, valueMissing) ∈ invalid)
       ∧ submission_db (AddDeviceModal_submit user name ipAddress port e d) d = d)
  ∧ (∀ u name ipAddress port e d d',
       AddDeviceModal_submit (Some u) name ipAddress port e d = submitted (d', None) →
       ∃ p, parseInt port = Some p
            ∧ devices d !! gen_random_uuid e = None
            ∧ d' = set_devices
                     (<[gen_random_uuid e :=
                          device.mk name ipAddress p u None unknown None (now e)]>
                        (devices d)) d).
Proof.
  split.
  - intros user name ipAddress port e d Hempty.
    exists (device_form_validity name ipAddress port).
    assert (Hin : ("name"%string, valueMissing) ∈ device_form_validity name ipAddress port
                  ∨ ("ip_address"%string, valueMissing)
                    ∈ device_form_validity name ipAddress port).
    { unfold device_form_validity, text_required. rewrite !elem_of_app.
      destruct Hempty as [-> | ->]; [left; left | right; right; left];
        simpl; apply elem_of_cons; by left. }
    assert (Hb : AddDeviceModal_submit user name ipAddress port e d
                 = blocked (device_form_validity name ipAddress port))
      by (destruct Hin as [Hin|Hin]; by eapply device_form_blocked).
    split_and!; [done | done | by rewrite Hb].
  - intros u name ipAddress port e d d' Hsub.
    unfold AddDeviceModal_submit in Hsub.
    destruct (device_form_validity name ipAddress port); [|done].
    injection Hsub as Hsub.
    unfold AddDeviceModal_handleSubmit, devices_insert in Hsub. simpl in Hsub.
    repeat case_match; simplify_eq/=.
    eexists. split_and!; [done | | done].
    apply eq_None_not_Some. by eapply bool_decide_eq_false_1.
Qed.

(** The two guards differ: [handleSubmit] itself and the table ([NOT NULL]
    only) take an empty name and address; only the [required] attribute of
    the inputs keeps them out. *)
Lemma handleSubmit_takes_empty_name :
  AddDeviceModal_handleSubmit (Some 7%nat) "" "" "3000" (mkEnv 1 100) empty_db
  = (set_devices {[ 1%nat := device.mk "" "" 3000 7%nat None unknown None 100 ]} empty_db,
     None).
Proof. reflexivity. Qed.

Lemma registration_validates_and_defaults_witness :
  (∃ invalid,
     AddDeviceModal_submit (Some 7%nat) "" "192.168.1.100" "3000" (mkEnv 1 100) empty_db
     = blocked invalid
     ∧ (("name"%string, valueMissing) ∈ invalid
        ∨ ("ip_address"%string, valueMissing) ∈ invalid)
     ∧ submission_db
         (AddDeviceModal_submit (Some 7%nat) "" "192.168.1.100" "3000" (mkEnv 1 100)
            empty_db) empty_db = empty_db)
  ∧ (∃ p, parseInt "3000" = Some p
          ∧ devices empty_db !! 1%nat = None
          ∧ registered
            = set_devices
                (<[ 1%nat := device.mk "Prime" "192.168.1.100" p 7%nat None unknown
                               None 100 ]> (devices empty_db)) empty_db).
Proof.
  destruct registration_validates_and_defaults as [Hblocked Hcreated].
  split.
  - apply Hblocked. by left.
  - apply (Hcreated 7%nat "Prime"%string "192.168.1.100"%string "3000"%string
             (mkEnv 1 100) empty_db registered).
    reflexivity.
Defined.

(** ** Who may change and who may delete a device *)

Lemma team_created_by_true d t uid :
  team_created_by d t uid = true
  ↔ ∃ tm, teams d !! t = Some tm ∧ team.created_by tm = uid.
Proof.
  unfold team_created_by. destruct (teams d !! t) as [tm|].
  - rewrite bool_decide_eq_true. split; [by eexists | by intros (? & [= <-] & ?)].
  - split; [done | by intros (? & ? & _)].
Qed.

Lemma devices_update_using_true d dev uid :
  devices_update_using d dev uid = true
  ↔ device.owner_id dev = uid
    ∨ ∃ t tm, device.team_id dev = Some t ∧ teams d !! t = Some tm
              ∧ team.created_by tm = uid.
Proof.
  unfold devices_update_using, device_owners_can_update_their_devices,
    team_admins_can_update_team_devices.
  rewrite orb_true_iff, bool_decide_eq_true.
  destruct (device.team_id dev) as [t|].
  - rewrite team_created_by_true. split.
    + intros [? | (tm & ? & ?)]; [by left | right; by exists t, tm].
    + intros [? | (t' & tm & [= <-] & ? & ?)]; [by left | right; by exists tm].
  - split; [intros [? | ?]; [by left | done] | intros [? | (? & ? & ? & _)]; [by left | done]].
Qed.


(** C9 (as amended).  For a stored device: the expression of the UPDATE
    policies holds for the owner and for the user who created the device's
    team, and for no one else, whatever role the membership rows give; the
    expression of the DELETE policy holds for the owner alone.  An update
    by a user who is neither the owner nor the creator of the device's
    team, and a delete by a user who is not the owner, leave the database
    as it was. *)
Theorem device_update_and_delete_rights (d : db) (uid id : nat) (dev : device.t) :
  devices d !! id = Some dev →
  (devices_update_using d dev uid = true
   ↔ device.owner_id dev = uid
     ∨ ∃ t tm, device.team_id dev = Some t ∧ teams d !! t = Some tm
               ∧ team.created_by tm = uid)
  ∧ (devices_delete_using dev uid = true ↔ device.owner_id dev = uid)
  ∧ (device.owner_id dev ≠ uid →
     (∀ t tm, device.team_id dev = Some t → teams d !! t = Some tm →
              team.created_by tm ≠ uid) →
     ∀ u, (devices_update (authenticated uid) id u d).1 = d)
  ∧ (device.owner_id dev ≠ uid →
     (devices_delete (authenticated uid) id d).1 = d).
Proof.
  intros Hdev. split_and!.
  - apply devices_update_using_true.
  - unfold devices_delete_using, device_owners_can_delete_their_devices.
    apply bool_decide_eq_true.
  - intros _ _ u.
    exact (f_equal fst (signed_in_statement_refused uid (UpdateDevice id u) d)).
  - intros _.
    exact (f_equal fst (signed_in_statement_refused uid (DeleteDeviceRow id) d)).
Qed.

(** C9 as stated fails: user 2 holds the admin role in the team of device
    5 and is not authorized to update it.  The policy "Team admins can
    update team devices" asks for the team's creator, which user 2 is not,
    and [EditDeviceModal.handleSubmit] of user 2 is refused and changes
    nothing. *)
Lemma admin_role_does_not_authorize_update :
  team_members shared !! 21%nat = Some (team_member.mk 10%nat 2%nat admin 0)
  ∧ device.team_id <$> devices shared !! 5%nat = Some (Some 10%nat)
  ∧ team_admins_can_update_team_devices 2%nat shared
      (device.mk "VIP" "192.168.1.101" 3000 3%nat (Some 10%nat) online (Some 50) 10)
    = false
  ∧ EditDeviceModal_handleSubmit (Some 2%nat) 5%nat "VIP" "10.0.0.9" "8080" shared
    = (shared, Some (invalid_object_definition "team_members")).
Proof. split_and!; reflexivity. Qed.

Lemma device_update_and_delete_rights_witness :
  devices shared !! 5%nat
    = Some (device.mk "VIP" "192.168.1.101" 3000 3%nat (Some 10%nat) online (Some 50) 10)
  ∧ devices_update_using shared
      (device.mk "VIP" "192.168.1.101" 3000 3%nat (Some 10%nat) online (Some 50) 10)
      1%nat = true
  ∧ (devices_update (authenticated 2) 5%nat
       (device.mkUpdate (Some "VIP"%string) (Some "10.0.0.9"%string) (Some (Some 8080))
          None None None None None) shared).1 = shared
  ∧ (devices_delete (authenticated 1) 5%nat shared).1 = shared.
Proof.
  split; [reflexivity|].
  pose proof (device_update_and_delete_rights shared 1%nat 5%nat _ eq_refl)
    as (Hupd1 & _ & _ & Hdel1).
  pose proof (device_update_and_delete_rights shared 2%nat 5%nat _ eq_refl)
    as (_ & _ & Hupd2 & _).
  split; [|split].
  - apply Hupd1. right. exists 10%nat, (team.mk "DJ Team" 1%nat 0). by split_and!.
  - apply Hupd2.
    + simpl. lia.
    + intros t tm [= <-] Htm. vm_compute in Htm. injection Htm as <-. simpl. lia.
  - apply Hdel1. simpl. lia.
Defined.

(** ** Deleting a team *)

Lemma teams_delete_service_role id d tm :
  teams d !! id = Some tm →
  teams_delete service_role id d
  = (mkDb (delete id (teams d))
          (filter (λ km, team_member.team_id km.2 ≠ id) (team_members d))
          (clear_team id <$> devices d)
          (commands d), None).
Proof. intros Htm. unfold teams_delete. simpl. by rewrite Htm. Qed.

Lemma teams_delete_cases r id d :
  (teams_delete r id d).1 = d
  ∨ (is_Some (teams d !! id)
     ∧ (teams_delete r id d).1
       = mkDb (delete id (teams d))
              (filter (λ km, team_member.team_id km.2 ≠ id) (team_members d))
              (clear_team id <$> devices d)
              (commands d)).
Proof. statement_cases; auto. Qed.

Lemma clear_team_columns t x :
  device.name (clear_team t x) = device.name x
  ∧ device.ip_address (clear_team t x) = device.ip_address x
  ∧ device.port (clear_team t x) = device.port x
  ∧ device.owner_id (clear_team t x) = device.owner_id x
  ∧ device.status (clear_team t x) = device.status x
  ∧ device.last_seen (clear_team t x) = device.last_seen x
  ∧ device.created_at (clear_team t x) = device.created_at x
  ∧ device.team_id (clear_team t x)
    = if decide (device.team_id x = Some t) then None else device.team_id x.
Proof.
  unfold clear_team. destruct (decide (device.team_id x = Some t)).
  - by rewrite bool_decide_eq_true_2 by done.
  - by rewrite bool_decide_eq_false_2 by done.
Qed.

(** C10.  A delete of a team, under whatever role, deletes no device and
    no command.  When it removes the team, as it does under the service
    role, a device that was assigned to the team has no team afterwards
    and any other device keeps its team; otherwise every device keeps its
    team; and in both cases name, address, port, owner, status, last-seen
    and creation time of every device are as before.  The dashboard's
    [deleteTeam] does not get that far: whoever is signed in, and whatever
    the answer to the dialog, it leaves the database as it was. *)
Theorem deleteTeam_keeps_devices (teamId : nat) (d : db) :
  (∀ r,
     let d' := (teams_delete r teamId d).1 in
     commands d' = commands d
     ∧ (∀ k, devices d !! k = None → devices d' !! k = None)
     ∧ ∀ k dev, devices d !! k = Some dev →
         ∃ dev', devices d' !! k = Some dev'
           ∧ device.team_id dev'
             = (if decide (device.team_id dev = Some teamId
                           ∧ is_Some (teams d !! teamId) ∧ teams d' !! teamId = None)
                then None else device.team_id dev)
           ∧ device.name dev' = device.name dev
           ∧ device.ip_address dev' = device.ip_address dev
           ∧ device.port dev' = device.port dev
           ∧ device.owner_id dev' = device.owner_id dev
           ∧ device.status dev' = device.status dev
           ∧ device.last_seen dev' = device.last_seen dev
           ∧ device.created_at dev' = device.created_at dev)
  ∧ teams (teams_delete service_role teamId d).1 !! teamId = None
  ∧ (∀ user confirmed, (deleteTeam user confirmed teamId d).1 = d).
Proof.
  split_and!.
  - intros r d'. subst d'.
    destruct (teams_delete_cases r teamId d) as [-> | [Hsome ->]].
    + split_and!; [done | done |].
      intros k dev Hk. exists dev. split; [done|].
      split_and!; try done.
      destruct (decide _) as [(_ & [tm Htm] & Hnone)|]; [|done].
      by rewrite Htm in Hnone.
    + cbn [commands devices teams].
      split_and!; [done | by intros k Hk; rewrite lookup_fmap, Hk |].
      intros k dev Hk. exists (clear_team teamId dev).
      rewrite lookup_fmap, Hk. split; [done|].
      destruct (clear_team_columns teamId dev)
        as (-> & -> & -> & -> & -> & -> & -> & ->).
      split_and!; try done.
      destruct (decide (device.team_id dev = Some teamId)) as [Ht|Ht].
      * rewrite decide_True; [done|]. split_and!; [done | done |].
        apply lookup_delete_eq.
      * rewrite decide_False; [done|]. by intros [? _].
  - destruct (teams d !! teamId) as [tm|] eqn:Htm.
    + rewrite (teams_delete_service_role teamId d tm Htm). apply lookup_delete_eq.
    + unfold teams_delete. simpl. by rewrite Htm.
  - intros [u|] [|]; try done.
    unfold deleteTeam, teams_delete. simpl. by destruct (teams d !! teamId).
Qed.

Lemma deleteTeam_keeps_devices_witness :
  teams shared !! 10%nat = Some (team.mk "DJ Team" 1%nat 0)
  ∧ teams (teams_delete service_role 10%nat shared).1 !! 10%nat = None
  ∧ commands (teams_delete service_role 10%nat shared).1 = commands shared
  ∧ devices (teams_delete service_role 10%nat shared).1
    = {[ 5%nat := device.mk "VIP" "192.168.1.101" 3000 3%nat None online (Some 50) 10 ]}
  ∧ (deleteTeam (Some 1%nat) true 10%nat shared).1 = shared.
Proof.
  destruct (deleteTeam_keeps_devices 10%nat shared) as (Hstore & Hgone & Hdash).
  split; [reflexivity|]. split; [exact Hgone|].
  split; [exact (proj1 (Hstore service_role))|].
  split; [reflexivity | exact (Hdash (Some 1%nat) true)].
Defined.

(** ** The remaining instances *)

Lemma producer_keeps_status_and_last_seen_witness :
  devices (run_producer
             (AddDevice (Some 7%nat) "VIP" "192.168.1.101" "3000" (mkEnv 5 500))
             polled) !! 1%nat
    = Some (device.mk "Prime" "192.168.1.100" 3000 7%nat None online (Some 400) 100)
  ∧ online = online ∧ Some 400 = Some 400.
Proof.
  split; [reflexivity|].
  exact (producer_keeps_status_and_last_seen
           (AddDevice (Some 7%nat) "VIP" "192.168.1.101" "3000" (mkEnv 5 500))
           polled 1%nat
           (device.mk "Prime" "192.168.1.100" 3000 7%nat None online (Some 400) 100)
           eq_refl).
Defined.

Lemma pending_commands_oldest_first_witness :
  commands_select_pending service_role 1%nat queued
  = [(9%nat, command.mk 1%nat next_track "{}" pending 7%nat 210 None);
     (4%nat, command.mk 1%nat next_track "{}" pending 7%nat 220 None);
     (6%nat, command.mk 1%nat unmute_zoom "{}" pending 7%nat 230 None)].
Proof.
  destruct (pending_commands_oldest_first 1%nat queued) as (_ & _ & _ & H).
  apply H; [|simpl; lia|simpl; lia].
  vm_compute. apply (Permutation_rev [_; _; _]).
Defined.

(** * Further properties of the code *)

(** ** The desktop client's poll cycle *)

Lemma commands_select_pending_nil r deviceId d :
  (∀ k c, commands d !! k = Some c →
          ¬ (command.device_id c = deviceId ∧ command.status c = pending)) →
  commands_select_pending r deviceId d = [].
Proof.
  intros Hnone. unfold commands_select_pending.
  assert (filter (λ kc : nat * command.t,
                    command.device_id kc.2 = deviceId
                    ∧ command.status kc.2 = pending) (commands_visible r d) = ∅)
    as ->; [|by rewrite map_to_list_empty].
  apply map_empty. intros k. apply map_lookup_filter_None. right.
  intros c Hc Hp. simpl in *.
  unfold commands_visible in Hc. apply map_lookup_filter_Some in Hc as [Hc _].
  by eapply Hnone.
Qed.

Lemma finish_not_pending ok date c : command.status (finish ok date c) ≠ pending.
Proof. by destruct ok. Qed.

Lemma pollCommands_leaves_none_pending DEVICE_ID pe d k c :
  commands (pollCommands DEVICE_ID pe d) !! k = Some c →
  ¬ (command.device_id c = DEVICE_ID ∧ command.status c = pending).
Proof.
  rewrite pollCommands_commands.
  destruct (commands d !! k) as [c0|]; [|done].
  destruct (decide _) as [Hp|Hp]; intros [= <-]; [|done].
  intros [_ ?]. by eapply finish_not_pending.
Qed.

(** After a poll cycle no command of the client's device is pending, so a
    second cycle finds nothing to execute and leaves the commands as they
    are: run one after the other, poll cycles execute a command once. *)
Theorem poll_cycle_drains_queue (DEVICE_ID : nat) (pe pe' : poll_env) (d : db) :
  commands_select_pending service_role DEVICE_ID (pollCommands DEVICE_ID pe d) = []
  ∧ commands (pollCommands DEVICE_ID pe' (pollCommands DEVICE_ID pe d))
    = commands (pollCommands DEVICE_ID pe d).
Proof.
  split.
  - apply commands_select_pending_nil. apply pollCommands_leaves_none_pending.
  - apply map_eq. intros k. rewrite (pollCommands_commands DEVICE_ID pe').
    destruct (commands (pollCommands DEVICE_ID pe d) !! k) as [c|] eqn:Hc; [|done].
    rewrite decide_False; [done|].
    by eapply pollCommands_leaves_none_pending.
Qed.

Lemma devices_update_other r id u d k :
  k ≠ id → devices (devices_update r id u d).1 !! k = devices d !! k.
Proof. intros Hk. statement_cases; try done. by rewrite lookup_insert_ne. Qed.

Lemma devices_update_teams r id u d :
  teams (devices_update r id u d).1 = teams d
  ∧ team_members (devices_update r id u d).1 = team_members d.
Proof. statement_cases; done. Qed.

Lemma finish_keeps_identity ok date c :
  command.device_id (finish ok date c) = command.device_id c
  ∧ command.command_type (finish ok date c) = command.command_type c
  ∧ command.payload (finish ok date c) = command.payload c
  ∧ command.sent_by (finish ok date c) = command.sent_by c
  ∧ command.sent_at (finish ok date c) = command.sent_at c.
Proof. by destruct ok. Qed.

(** What a poll cycle leaves alone: teams and memberships; every device
    but its own; every command that is not a pending command of its
    device.  It neither adds nor removes a command, and of the commands it
    finishes it keeps device, type, payload, sender and send time. *)
Theorem poll_cycle_frame (DEVICE_ID : nat) (pe : poll_env) (d : db) :
  let d' := pollCommands DEVICE_ID pe d in
  teams d' = teams d
  ∧ team_members d' = team_members d
  ∧ (∀ k, k ≠ DEVICE_ID → devices d' !! k = devices d !! k)
  ∧ (∀ id, commands d' !! id = None ↔ commands d !! id = None)
  ∧ (∀ id c, commands d !! id = Some c →
             ¬ (command.device_id c = DEVICE_ID ∧ command.status c = pending) →
             commands d' !! id = Some c)
  ∧ (∀ id c c', commands d !! id = Some c → commands d' !! id = Some c' →
                command.device_id c' = command.device_id c
                ∧ command.command_type c' = command.command_type c
                ∧ command.payload c' = command.payload c
                ∧ command.sent_by c' = command.sent_by c
                ∧ command.sent_at c' = command.sent_at c).
Proof.
  intros d'. subst d'.
  destruct (foldl_executeCommand pe
              (commands_select_pending service_role DEVICE_ID d) d
              (NoDup_commands_select_pending DEVICE_ID d)) as (Ht & Hm & Hd & _).
  split_and!.
  - rewrite pollCommands_unfold. by rewrite (proj1 (devices_update_teams _ _ _ _)).
  - rewrite pollCommands_unfold. by rewrite (proj2 (devices_update_teams _ _ _ _)).
  - intros k Hk. rewrite pollCommands_unfold. by rewrite devices_update_other, Hd.
  - intros id. rewrite pollCommands_commands.
    destruct (commands d !! id) as [c|]; [|done]. by destruct (decide _).
  - intros id c Hc Hp. rewrite pollCommands_commands, Hc. by rewrite decide_False.
  - intros id c c' Hc. rewrite pollCommands_commands, Hc.
    destruct (decide _); intros [= <-]; [apply finish_keeps_identity | done].
Qed.

Lemma poll_cycle_frame_witness :
  commands sent !! 2%nat
    = Some (command.mk 1%nat unmute_zoom "{}" pending 7%nat 200 None)
  ∧ (¬ (1%nat = 5%nat ∧ pending = pending) →
     commands (pollCommands 5%nat all_complete sent) !! 2%nat
     = Some (command.mk 1%nat unmute_zoom "{}" pending 7%nat 200 None)).
Proof.
  split; [reflexivity|].
  exact (proj1 (proj2 (proj2 (proj2 (proj2 (poll_cycle_frame 5%nat all_complete sent)))))
           2%nat (command.mk 1%nat unmute_zoom "{}" pending 7%nat 200 None) eq_refl).
Defined.

(** The heartbeat at the end of a poll cycle: the client's device comes out
    online with [last_seen] the time of the poll and every other column as
    it was; a client whose device has been deleted changes no device. *)
Theorem poll_cycle_heartbeat (DEVICE_ID : nat) (pe : poll_env) (d : db) :
  (∀ dev, devices d !! DEVICE_ID = Some dev →
          devices_port_check (device.port dev) = true →
          devices (pollCommands DEVICE_ID pe d) !! DEVICE_ID
          = Some (device.mk (device.name dev) (device.ip_address dev) (device.port dev)
                    (device.owner_id dev) (device.team_id dev) online
                    (Some (seen_date pe)) (device.created_at dev)))
  ∧ (devices d !! DEVICE_ID = None →
     devices (pollCommands DEVICE_ID pe d) = devices d).
Proof.
  destruct (foldl_executeCommand pe
              (commands_select_pending service_role DEVICE_ID d) d
              (NoDup_commands_select_pending DEVICE_ID d)) as (_ & _ & Hd & _).
  split.
  - intros dev Hdev Hport. rewrite pollCommands_unfold. unfold devices_update.
    cbn [policy_expansion]. rewrite Hd, Hdev. simpl. rewrite Hport. simpl.
    rewrite bool_decide_eq_false_2 by (intros ?; done). simpl.
    by rewrite lookup_insert_eq.
  - intros Hnone. rewrite pollCommands_unfold. unfold devices_update.
    cbn [policy_expansion]. by rewrite Hd, Hnone.
Qed.

Lemma poll_cycle_heartbeat_witness :
  devices (pollCommands 1%nat all_complete sent) !! 1%nat
  = Some (device.mk "Prime" "192.168.1.100" 3000 7%nat None online (Some 400) 100)
  ∧ devices (pollCommands 5%nat all_complete sent) = devices sent.
Proof.
  split.
  - exact (proj1 (poll_cycle_heartbeat 1%nat all_complete sent)
             (device.mk "Prime" "192.168.1.100" 3000 7%nat None unknown None 100)
             eq_refl eq_refl).
  - exact (proj2 (poll_cycle_heartbeat 5%nat all_complete sent) eq_refl).
Defined.

(** [executeCommand] goes by the key of the row it is handed and by nothing
    else: it leaves the other tables and every other command alone, does
    nothing when the command is no longer stored (its device was deleted
    meanwhile), and otherwise writes the outcome whatever status the stored
    row has, keeping an earlier timestamp when the action fails. *)
Theorem executeCommand_goes_by_key (command : nat * command.t) (ok : bool)
    (date : Z) (d : db) :
  let d' := executeCommand command ok date d in
  teams d' = teams d ∧ team_members d' = team_members d ∧ devices d' = devices d
  ∧ (∀ k, k ≠ command.1 → commands d' !! k = commands d !! k)
  ∧ (commands d !! command.1 = None → d' = d)
  ∧ (∀ c, commands d !! command.1 = Some c →
          commands d' !! command.1
          = Some (command.mk (command.device_id c) (command.command_type c)
                    (command.payload c) (if ok then executed else failed)
                    (command.sent_by c) (command.sent_at c)
                    (if ok then Some date else command.executed_at c))).
Proof.
  intros d'. subst d'. rewrite executeCommand_spec. simpl. split_and!; try done.
  - intros k Hk. by rewrite lookup_alter_ne.
  - intros Hnone. destruct d as [t m dv c]. unfold set_commands. simpl in *.
    f_equal. apply map_eq. intros k. destruct (decide (k = command.1)) as [->|].
    + by rewrite lookup_alter_eq, Hnone.
    + by rewrite lookup_alter_ne.
  - intros c Hc. rewrite lookup_alter_eq, Hc. by destruct ok.
Qed.

Lemma executeCommand_goes_by_key_witness :
  executeCommand (2%nat, command.mk 1%nat unmute_zoom "{}" pending 7%nat 200 None)
    true 300 registered = registered
  ∧ commands (executeCommand
                (2%nat, command.mk 1%nat unmute_zoom "{}" pending 7%nat 200 None)
                true 300 sent) !! 2%nat
    = Some (command.mk 1%nat unmute_zoom "{}" executed 7%nat 200 (Some 300)).
Proof.
  split.
  - exact (proj1 (proj2 (proj2 (proj2 (proj2
             (executeCommand_goes_by_key
                (2%nat, command.mk 1%nat unmute_zoom "{}" pending 7%nat 200 None)
                true 300 registered))))) eq_refl).
  - exact (proj2 (proj2 (proj2 (proj2 (proj2
             (executeCommand_goes_by_key
                (2%nat, command.mk 1%nat unmute_zoom "{}" pending 7%nat 200 None)
                true 300 sent)))))
             (command.mk 1%nat unmute_zoom "{}" pending 7%nat 200 None) eq_refl).
Defined.

(** Every pending command of the client's device that is stored when a
    poll cycle starts comes out of the cycle executed, stamped with the
    time of its execution, when its action completes, and failed, with the
    timestamp it had, when the action throws. *)
Theorem poll_cycle_finishes_pending (DEVICE_ID : nat) (pe : poll_env) (d : db)
    (id : nat) (c : command.t) :
  commands d !! id = Some c →
  command.device_id c = DEVICE_ID →
  command.status c = pending →
  commands (pollCommands DEVICE_ID pe d) !! id
  = Some (if completes pe id
          then command.mk DEVICE_ID (command.command_type c) (command.payload c)
                 executed (command.sent_by c) (command.sent_at c)
                 (Some (executed_date pe id))
          else command.mk DEVICE_ID (command.command_type c) (command.payload c)
                 failed (command.sent_by c) (command.sent_at c)
                 (command.executed_at c)).
Proof.
  intros Hc <- Hp. rewrite pollCommands_commands, Hc.
  rewrite decide_True by done.
  by destruct (completes pe id).
Qed.

Lemma poll_cycle_finishes_pending_witness :
  commands sent !! 2%nat
    = Some (command.mk 1%nat unmute_zoom "{}" pending 7%nat 200 None)
  ∧ commands polled !! 2%nat
    = Some (command.mk 1%nat unmute_zoom "{}" executed 7%nat 200 (Some 300)).
Proof.
  split; [reflexivity|].
  exact (poll_cycle_finishes_pending 1%nat all_complete sent 2%nat
           (command.mk 1%nat unmute_zoom "{}" pending 7%nat 200 None)
           eq_refl eq_refl eq_refl).
Defined.

(** ** The commands as an audit trail *)

Lemma devices_delete_cases r id d :
  (devices_delete r id d).1 = d
  ∨ (devices_delete r id d).1
    = set_commands (filter (λ kc, command.device_id kc.2 ≠ id) (commands d))
        (set_devices (delete id (devices d)) d).
Proof. statement_cases; auto. Qed.

Lemma CreateTeamModal_commands user name e1 e2 d :
  commands (CreateTeamModal_handleSubmit user name e1 e2 d).1 = commands d.
Proof.
  unfold CreateTeamModal_handleSubmit. destruct user as [u|]; [|done].
  pose proof (teams_insert_commands (session (Some u)) e1
                (team_insert.mk None name u None) true d) as H.
  destruct (teams_insert _ _ _ _ _) as [d1 [err|]]; cbn [fst snd] in *; [done|].
  by rewrite team_members_insert_commands.
Qed.

Lemma run_producer_keeps_commands op d id c :
  commands d !! id = Some c →
  commands (run_producer op d) !! id = Some c
  ∨ (commands (run_producer op d) !! id = None
     ∧ devices (run_producer op d) !! command.device_id c = None).
Proof.
  intros Hc. destruct op; simpl.
  - unfold sendCommand. destruct user; [|by left].
    destruct (commands_insert _ _ _ _) as [d' [err|]] eqn:E.
    + assert (d' = d) as -> by (statement_cases; done). by left.
    + apply commands_insert_inv in E as [Hfresh ->]. simpl. left.
      rewrite lookup_insert_ne; [done|]. intros <-. simpl in *. congruence.
  - unfold deleteDevice. destruct confirmed; simpl; [|by left].
    destruct (devices_delete_cases (session user) deviceId d) as [-> | ->]; [by left|].
    simpl. destruct (decide (command.device_id c = deviceId)) as [<-|Hne].
    + right. split; [|apply lookup_delete_eq].
      apply map_lookup_filter_None. right. intros c' Hc' Hp. simpl in *.
      rewrite Hc in Hc'. by simplify_eq.
    + left. by apply map_lookup_filter_Some.
  - unfold AddDeviceModal_handleSubmit. destruct user; [|by left].
    left. by rewrite devices_insert_commands.
  - unfold EditDeviceModal_handleSubmit. left. by rewrite devices_update_commands.
  - unfold deleteTeam. destruct confirmed; simpl; [|by left].
    left. by rewrite teams_delete_commands.
  - left. by rewrite CreateTeamModal_commands.
  - by left.
  - unfold removeMember. left. by rewrite team_members_delete_commands.
Qed.

(** In a step of the dashboard or of a desktop client a stored command is
    never rewritten in its device, type, payload, sender or send time, and
    it goes away only together with its device, when the device is
    deleted. *)
Theorem commands_are_an_audit_trail (d d' : db) (id : nat) (c : command.t) :
  app_step d d' →
  commands d !! id = Some c →
  (∃ c', commands d' !! id = Some c'
         ∧ command.device_id c' = command.device_id c
         ∧ command.command_type c' = command.command_type c
         ∧ command.payload c' = command.payload c
         ∧ command.sent_by c' = command.sent_by c
         ∧ command.sent_at c' = command.sent_at c)
  ∨ (commands d' !! id = None ∧ devices d' !! command.device_id c = None).
Proof.
  intros Hstep Hc. destruct Hstep as [op d | DEVICE_ID pe d].
  - destruct (run_producer_keeps_commands op d id c Hc) as [H | H]; [left | by right].
    by exists c.
  - left. rewrite pollCommands_commands, Hc.
    destruct (decide _); eexists; (split; [done|]); [apply finish_keeps_identity | done].
Qed.

Lemma commands_are_an_audit_trail_witness :
  app_step polled (run_producer (DeleteDevice (Some 7%nat) true 1%nat) polled)
  ∧ ((∃ c', commands (run_producer (DeleteDevice (Some 7%nat) true 1%nat) polled) !! 2%nat
            = Some c'
            ∧ command.device_id c' = 1%nat
            ∧ command.command_type c' = unmute_zoom
            ∧ command.payload c' = "{}"%string
            ∧ command.sent_by c' = 7%nat
            ∧ command.sent_at c' = 200)
     ∨ (commands (run_producer (DeleteDevice (Some 7%nat) true 1%nat) polled) !! 2%nat
        = None
        ∧ devices (run_producer (DeleteDevice (Some 7%nat) true 1%nat) polled) !! 1%nat
          = None)).
Proof.
  split; [apply step_producer|].
  exact (commands_are_an_audit_trail polled _ 2%nat
           (command.mk 1%nat unmute_zoom "{}" executed 7%nat 200 (Some 300))
           (step_producer (DeleteDevice (Some 7%nat) true 1%nat) polled) eq_refl).
Defined.

(** ** A signed-out dashboard *)

(** Without a signed-in user no action of the dashboard changes anything:
    the handlers that look at [user] return at once, and the statements of
    the others run under the anon role, for which there is no policy. *)
Theorem signed_out_changes_nothing (op : producer_op) (d : db) :
  op_user op = None → run_producer op d = d.
Proof.
  destruct op; simpl; intros ->; try done.
  - unfold deleteDevice, devices_delete. destruct confirmed; [|done]. simpl.
    by destruct (devices d !! deviceId).
  - unfold EditDeviceModal_handleSubmit, devices_update. simpl.
    destruct (devices d !! id); [|done]. simpl. by destruct (negb (int4 _)).
  - unfold deleteTeam, teams_delete. destruct confirmed; [|done]. simpl.
    by destruct (teams d !! teamId).
  - unfold removeMember, team_members_delete. simpl.
    by destruct (team_members d !! memberId).
Qed.

Lemma signed_out_changes_nothing_witness :
  run_producer (DeleteDevice None true 1%nat) polled = polled
  ∧ run_producer (AddMember None 10%nat "dj@example.org" (mkEnv 30 70)) shared = shared.
Proof.
  split.
  - exact (signed_out_changes_nothing (DeleteDevice None true 1%nat) polled eq_refl).
  - exact (signed_out_changes_nothing
             (AddMember None 10%nat "dj@example.org" (mkEnv 30 70)) shared eq_refl).
Defined.

(** ** What the constraints keep true *)

Lemma is_Some_insert_keeps {A} (m : gmap nat A) k x j :
  is_Some (m !! j) → is_Some (<[k := x]> m !! j).
Proof.
  intros H. destruct (decide (k = j)) as [->|].
  - rewrite lookup_insert_eq. by eexists.
  - by rewrite lookup_insert_ne.
Qed.

Lemma commands_insert_references r e i d :
  references_hold d → references_hold (commands_insert r e i d).1.
Proof.
  intros (Hc & Hd & Hm). statement_cases; try done.
  split_and!; simpl; [|done|done].
  intros k c [[<- <-] | [_ ?]]%lookup_insert_Some; [|by eauto].
  simpl. by eapply bool_decide_eq_true_1, negb_false_iff.
Qed.

Lemma commands_update_references r id u d :
  references_hold d → references_hold (commands_update r id u d).1.
Proof.
  intros (Hc & Hd & Hm). unfold commands_update.
  destruct (policy_expansion _ _ _); [done|].
  destruct (commands d !! id) as [old|] eqn:Hold; [|done].
  destruct (negb (rls r _)); [done|].
  destruct (negb (rls r _)); [done|].
  destruct (bool_decide _ && negb _) eqn:Hfk; [done|].
  split_and!; simpl; [|done|done].
  intros k c [[<- <-] | [_ ?]]%lookup_insert_Some; [|by eauto].
  apply andb_false_iff in Hfk as [Hfk|Hfk].
  - apply bool_decide_eq_false in Hfk. apply dec_stable in Hfk. rewrite Hfk. by eauto.
  - by eapply bool_decide_eq_true_1, negb_false_iff.
Qed.

Lemma devices_insert_references r e i d :
  references_hold d → references_hold (devices_insert r e i d).1.
Proof.
  intros (Hc & Hd & Hm). statement_cases; try done.
  split_and!; simpl; [| |done].
  - intros k c Hk. by eapply is_Some_insert_keeps, Hc.
  - intros k x t [[<- <-] | [_ ?]]%lookup_insert_Some Ht; [|by eauto].
    simpl in Ht. unfold team_reference_ok in *.
    match goal with H : negb _ = false |- _ => apply negb_false_iff in H end.
    rewrite Ht in *. by eapply bool_decide_eq_true_1.
Qed.

Lemma devices_update_references r id u d :
  references_hold d → references_hold (devices_update r id u d).1.
Proof.
  intros (Hc & Hd & Hm). unfold devices_update.
  destruct (policy_expansion _ _ _); [done|].
  destruct (devices d !! id) as [old|] eqn:Hold; [|done].
  cbv zeta.
  destruct (negb (int4 _)); [done|].
  destruct (negb (rls r _)); [done|].
  destruct (negb (rls r _)); [done|].
  destruct (default (Some (device.port old)) (device.u_port u)) as [p|]; [|done].
  destruct (negb (devices_port_check p)); [done|].
  destruct (bool_decide _ && negb _) eqn:Hfk; [done|].
  split_and!; simpl; [| |done].
  - intros k c Hk. by eapply is_Some_insert_keeps, Hc.
  - intros k x t [[<- <-] | [_ ?]]%lookup_insert_Some Ht; [|by eauto].
    apply andb_false_iff in Hfk as [Hfk|Hfk].
    + apply bool_decide_eq_false in Hfk. apply dec_stable in Hfk.
      rewrite Hfk in Ht. by eauto.
    + apply negb_false_iff in Hfk. unfold team_reference_ok in Hfk.
      rewrite Ht in Hfk. by eapply bool_decide_eq_true_1.
Qed.

Lemma devices_delete_references r id d :
  references_hold d → references_hold (devices_delete r id d).1.
Proof.
  intros (Hc & Hd & Hm).
  destruct (devices_delete_cases r id d) as [-> | ->]; [done|].
  split_and!; simpl; [| |done].
  - intros k c [Hk Hne]%map_lookup_filter_Some. simpl in Hne.
    rewrite lookup_delete_ne by done. by eauto.
  - intros k x t [_ Hk]%lookup_delete_Some. by eauto.
Qed.

Lemma teams_insert_references r e i ret d :
  references_hold d → references_hold (teams_insert r e i ret d).1.
Proof.
  intros (Hc & Hd & Hm). unfold teams_insert. cbv zeta.
  destruct (policy_expansion _ _ _); [done|].
  destruct (negb (rls r _)); [done|].
  destruct (bool_decide _); [done|].
  split_and!; simpl; [done| |].
  - intros k x t Hk Ht. by eapply is_Some_insert_keeps, Hd.
  - intros k m Hk. by eapply is_Some_insert_keeps, Hm.
Qed.

Lemma clear_team_team_id t x t' :
  device.team_id (clear_team t x) = Some t' → device.team_id x = Some t' ∧ t' ≠ t.
Proof.
  unfold clear_team. case_bool_decide as H; simpl; [done|].
  intros Ht. split; [done|]. intros ->. by rewrite Ht in H.
Qed.

Lemma teams_delete_references r id d :
  references_hold d → references_hold (teams_delete r id d).1.
Proof.
  intros (Hc & Hd & Hm). unfold teams_delete.
  destruct (policy_expansion _ _ _); [done|].
  destruct (teams d !! id) as [old|] eqn:Hold; [|done].
  case_match; [done|]. simpl. split_and!; simpl.
  - intros k c Hk. rewrite lookup_fmap.
    destruct (Hc k c Hk) as [x ->]. by eexists.
  - intros k x t. rewrite lookup_fmap.
    destruct (devices d !! k) as [x0|] eqn:Hx0; [|done].
    intros [= <-] [Ht Hne]%clear_team_team_id.
    rewrite lookup_delete_ne by done. by eauto.
  - intros k m [Hk Hne]%map_lookup_filter_Some. simpl in Hne.
    rewrite lookup_delete_ne by done. by eauto.
Qed.

Lemma team_members_insert_references r e i d :
  references_hold d → references_hold (team_members_insert r e i d).1.
Proof.
  intros (Hc & Hd & Hm). statement_cases; try done.
  split_and!; simpl; [done|done|].
  intros k m [[<- <-] | [_ ?]]%lookup_insert_Some; [|by eauto].
  simpl. by eapply bool_decide_eq_true_1, negb_false_iff.
Qed.

Lemma team_members_delete_references r id d :
  references_hold d → references_hold (team_members_delete r id d).1.
Proof.
  intros (Hc & Hd & Hm). statement_cases; try done.
  split_and!; simpl; [done|done|].
  intros k m [_ Hk]%lookup_delete_Some. by eauto.
Qed.

Lemma commands_delete_references r id d :
  references_hold d → references_hold (commands_delete r id d).1.
Proof.
  intros (Hc & Hd & Hm). statement_cases; try done.
  split_and!; simpl; [|done|done].
  intros k c [_ Hk]%lookup_delete_Some. by eauto.
Qed.

Lemma teams_update_references r id u d :
  references_hold d → references_hold (teams_update r id u d).1.
Proof.
  intros (Hc & Hd & Hm). unfold teams_update.
  destruct (policy_expansion _ _ _); [done|].
  destruct (teams d !! id) as [old|]; [|done].
  destruct (negb (rls r _)); [done|]. cbv zeta.
  destruct (negb (rls r _)); [done|].
  split_and!; simpl; [done| |].
  - intros k x t' Hk Ht. by eapply is_Some_insert_keeps, Hd.
  - intros k m Hk. by eapply is_Some_insert_keeps, Hm.
Qed.

Lemma team_members_update_references r id u d :
  references_hold d → references_hold (team_members_update r id u d).1.
Proof.
  intros (Hc & Hd & Hm). unfold team_members_update.
  destruct (policy_expansion _ _ _); [done|].
  destruct (team_members d !! id) as [old|] eqn:Hold; [|done].
  destruct (negb (rls r _)); [done|]. cbv zeta.
  destruct (membership_taken _ _ _); [done|].
  destruct (bool_decide _ && negb _) eqn:Hfk; [done|].
  split_and!; simpl; [done|done|].
  intros k m [[<- <-] | [_ ?]]%lookup_insert_Some; [|by eauto].
  apply andb_false_iff in Hfk as [Hfk|Hfk].
  - apply bool_decide_eq_false in Hfk. apply dec_stable in Hfk. rewrite Hfk. by eauto.
  - by eapply bool_decide_eq_true_1, negb_false_iff.
Qed.

Lemma execute_preserves_references r s d :
  references_hold d → references_hold (execute r s d).1.
Proof.
  intros H. destruct s; simpl.
  - by apply commands_insert_references.
  - by apply commands_update_references.
  - by apply commands_delete_references.
  - by apply devices_insert_references.
  - by apply devices_update_references.
  - by apply devices_delete_references.
  - by apply teams_insert_references.
  - by apply teams_update_references.
  - by apply teams_delete_references.
  - by apply team_members_insert_references.
  - by apply team_members_update_references.
  - by apply team_members_delete_references.
Qed.

Lemma run_reachable r l d : rtc statement_step d (run r l d).
Proof.
  revert d. induction l as [|s l IH]; intros d; [apply rtc_refl|].
  eapply rtc_l; [apply (step_statement r s d)|]. apply IH.
Qed.

Lemma assigned_reachable : rtc statement_step empty_db assigned.
Proof.
  eapply rtc_l;
    [exact (step_statement (authenticated 7)
              (InsertDevice (mkEnv 1 100)
                 (device.mkInsert None "Prime" "192.168.1.100" (Some 3000) 7%nat
                    None None None None)) empty_db)|].
  eapply rtc_l;
    [exact (step_statement service_role
              (InsertCommand (mkEnv 2 200) (queue_command 1 unmute_zoom 7))
              registered)|].
  apply (run_reachable service_role _ sent).
Qed.

(** Whatever inserts, updates of columns other than the key and deletes
    by key the data store is sent on its four tables, under whatever role,
    every command refers to a stored device, every device with a team to
    a stored team, and every membership to a stored team: the foreign keys
    refuse a dangling reference and the ON DELETE rules clear up after a
    delete. *)
Theorem references_always_hold (d : db) :
  rtc statement_step empty_db d → references_hold d.
Proof.
  revert d. apply (rtc_ind_r (λ d, references_hold d)).
  - split_and!; intros ? ?; simpl; intros; by rewrite ?lookup_empty in *.
  - intros d1 d2 _ Hstep IH. destruct Hstep as [r s d1].
    by apply execute_preserves_references.
Qed.

Lemma references_always_hold_witness :
  rtc statement_step empty_db assigned
  ∧ commands assigned !! 2%nat
    = Some (command.mk 1%nat unmute_zoom "{}" pending 7%nat 200 None)
  ∧ devices assigned !! 1%nat
    = Some (device.mk "Prime" "192.168.1.100" 3000 7%nat (Some 10%nat) unknown None 100)
  ∧ team_members assigned !! 20%nat = Some (team_member.mk 10%nat 7%nat admin 60)
  ∧ references_hold assigned.
Proof.
  split; [exact assigned_reachable|].
  split; [reflexivity|]. split; [reflexivity|]. split; [reflexivity|].
  exact (references_always_hold assigned assigned_reachable).
Defined.

Lemma memberships_unique_submap (m : gmap nat team_member.t) d :
  (∀ k x, m !! k = Some x → team_members d !! k = Some x) →
  memberships_unique d →
  ∀ k1 k2 m1 m2, m !! k1 = Some m1 → m !! k2 = Some m2 →
    team_member.team_id m1 = team_member.team_id m2 →
    team_member.user_id m1 = team_member.user_id m2 → k1 = k2.
Proof. intros Hsub Hu k1 k2 m1 m2 H1 H2. eapply Hu; by apply Hsub. Qed.

Lemma team_members_insert_unique r e i d :
  memberships_unique d → memberships_unique (team_members_insert r e i d).1.
Proof.
  intros Hu. unfold team_members_insert. cbv zeta.
  destruct (policy_expansion _ _ _); [done|].
  destruct (negb (rls r _)); [done|].
  destruct (bool_decide (is_Some _)); [done|].
  destruct (has_membership d _ _) eqn:Hnew; [done|].
  destruct (negb (bool_decide _)); [done|].
  assert (Hno : ∀ k m, team_members d !! k = Some m →
    team_member.team_id m = team_member.team_id (team_member_of_insert e i) →
    team_member.user_id m = team_member.user_id (team_member_of_insert e i) → False).
  { intros k m Hk Ht Hus. apply not_true_iff_false in Hnew. apply Hnew.
    apply has_membership_true. by exists k, m. }
  intros k1 k2 m1 m2. simpl.
  intros [[<- <-] | [? H1]]%lookup_insert_Some [[<- <-] | [? H2]]%lookup_insert_Some Ht Hus.
  - done.
  - exfalso. by eapply (Hno k2 m2).
  - exfalso. by eapply (Hno k1 m1).
  - by eapply Hu.
Qed.

Lemma membership_taken_false d id x k m :
  membership_taken d id x = false →
  team_members d !! k = Some m → k ≠ id →
  team_member.team_id m = team_member.team_id x →
  team_member.user_id m = team_member.user_id x → False.
Proof.
  unfold membership_taken. intros Hno Hk Hne Ht Hu.
  apply bool_decide_eq_false in Hno. apply Hno.
  apply map_Exists_lookup. by exists k, m.
Qed.

Lemma team_members_update_unique r id u d :
  memberships_unique d → memberships_unique (team_members_update r id u d).1.
Proof.
  intros Hu. unfold team_members_update.
  destruct (policy_expansion _ _ _); [done|].
  destruct (team_members d !! id) as [old|] eqn:Hold; [|done].
  destruct (negb (rls r _)); [done|]. cbv zeta.
  destruct (membership_taken _ _ _) eqn:Hno; [done|].
  destruct (bool_decide _ && negb _); [done|].
  intros k1 k2 m1 m2. simpl.
  intros [[<- <-] | [? H1]]%lookup_insert_Some [[<- <-] | [? H2]]%lookup_insert_Some Ht Hus.
  - done.
  - exfalso. by eapply (membership_taken_false d id _ k2 m2).
  - exfalso. by eapply (membership_taken_false d id _ k1 m1).
  - by eapply Hu.
Qed.

Lemma execute_preserves_memberships_unique r s d :
  memberships_unique d → memberships_unique (execute r s d).1.
Proof.
  intros Hu. destruct s; simpl.
  - by statement_cases.
  - by statement_cases.
  - by statement_cases.
  - by statement_cases.
  - by statement_cases.
  - by statement_cases.
  - by statement_cases.
  - by statement_cases.
  - unfold teams_delete. destruct (policy_expansion _ _ _); [done|].
    destruct (teams d !! id); [|done].
    case_match; [done|]. unfold memberships_unique. simpl.
    apply (memberships_unique_submap _ d); [|done].
    by intros k x [? _]%map_lookup_filter_Some.
  - by apply team_members_insert_unique.
  - by apply team_members_update_unique.
  - unfold team_members_delete. destruct (policy_expansion _ _ _); [done|].
    destruct (team_members d !! id); [|done].
    case_match; [done|]. unfold memberships_unique. simpl.
    apply (memberships_unique_submap _ d); [|done].
    by intros k x [_ ?]%lookup_delete_Some.
Qed.

(** Whatever inserts, updates of columns other than the key and deletes
    by key the data store is sent, under whatever role, a user has at most
    one membership row per team; an insert of a second row for a user and
    a team is refused with the unique violation and changes nothing, also
    under the service role. *)
Theorem one_membership_per_team_and_user :
  (∀ d, rtc statement_step empty_db d → memberships_unique d)
  ∧ (∀ e i d,
       is_team_member d (team_member_insert.team_id i) (team_member_insert.user_id i) →
       team_members d !! default (gen_random_uuid e) (team_member_insert.id i) = None →
       team_members_insert service_role e i d
       = (d, Some (unique_violation "team_members_team_id_user_id_key"))).
Proof.
  split.
  - apply (rtc_ind_r (λ d, memberships_unique d)).
    + intros k1 k2 m1 m2 H1. simpl in H1. by rewrite lookup_empty in H1.
    + intros d1 d2 _ Hstep IH. destruct Hstep as [r s d1].
      by apply execute_preserves_memberships_unique.
  - intros e i d Hmem Hfresh.
    unfold team_members_insert. simpl. rewrite Hfresh. simpl.
    by rewrite (proj2 (has_membership_true d _ _) Hmem).
Qed.

Lemma one_membership_per_team_and_user_witness :
  memberships_unique assigned
  ∧ is_team_member assigned 10%nat 7%nat
  ∧ team_members_insert service_role (mkEnv 30 70)
      (team_member_insert.mk None 10%nat 7%nat (Some member) None) assigned
    = (assigned, Some (unique_violation "team_members_team_id_user_id_key")).
Proof.
  split; [exact (proj1 one_membership_per_team_and_user assigned assigned_reachable)|].
  assert (H : is_team_member assigned 10%nat 7%nat)
    by (exists 20%nat, (team_member.mk 10%nat 7%nat admin 60); by split_and!).
  split; [exact H|].
  exact (proj2 one_membership_per_team_and_user (mkEnv 30 70)
           (team_member_insert.mk None 10%nat 7%nat (Some member) None)
           assigned H eq_refl).
Defined.

(** ** Whose name a row may carry *)

(** The two inserts a signed-in session can make do not go through in
    another user's name: a device with another owner, and a team with
    another creator, are refused by row-level security and nothing
    changes. *)
Theorem inserts_carry_the_session_user (uid : nat) (e : env) (d : db) :
  (∀ i, device.i_owner_id i ≠ uid →
        int4 (default 0 (device.i_port i)) = true →
        devices_insert (authenticated uid) e i d
        = (d, Some (insufficient_privilege "devices")))
  ∧ (∀ i, team_insert.created_by i ≠ uid →
          teams_insert (authenticated uid) e i false d
          = (d, Some (insufficient_privilege "teams"))).
Proof.
  split_and!.
  - intros i Hne Hint. unfold devices_insert. simpl. rewrite Hint. simpl.
    unfold devices_insert_check, users_can_create_devices. simpl.
    by rewrite bool_decide_eq_false_2.
  - intros i Hne. unfold teams_insert. simpl.
    unfold teams_insert_check, users_can_create_teams. simpl.
    by rewrite bool_decide_eq_false_2.
Qed.

Lemma inserts_carry_the_session_user_witness :
  devices_insert (authenticated 8) (mkEnv 1 100)
    (device.mkInsert None "Prime" "192.168.1.100" (Some 3000) 7%nat None None None None)
    empty_db
  = (empty_db, Some (insufficient_privilege "devices"))
  ∧ teams_insert (authenticated 8) (mkEnv 10 50)
      (team_insert.mk None "DJ Team" 7%nat None) false empty_db
    = (empty_db, Some (insufficient_privilege "teams")).
Proof.
  split.
  - apply (proj1 (inserts_carry_the_session_user 8%nat (mkEnv 1 100) empty_db));
      [simpl; lia | reflexivity].
  - apply (proj2 (inserts_carry_the_session_user 8%nat (mkEnv 10 50) empty_db)).
    simpl. lia.
Defined.

(** ** Which statements of a signed-in session run *)

Lemma infinite_recursion_subqueries (rel : relation) (cmds : list policy_for) :
  foldr (λ sub found,
           match infinite_recursion 3 [rel] sub [for_select] with
           | Some x => Some x
           | None => found
           end)
        None (cmds ≫= policy_subqueries rel)
  = if decide (cmds ≫= policy_subqueries rel = []) then None
    else Some rel_team_members.
Proof.
  induction cmds as [|cmd cmds IH]; [done|].
  rewrite bind_cons. destruct rel, cmd; try done; exact IH.
Qed.

(** With the policies of the migration, a statement of a signed-in session
    gets past policy expansion exactly when none of the policies that
    apply to it has a sub-query; every other statement is refused with
    42P17 for [team_members].  So a policy with a sub-query is never
    evaluated for a signed-in session. *)
Theorem expansion_refuses_every_subquery (uid : nat) (rel : relation)
    (cmds : list policy_for) :
  policy_expansion (authenticated uid) rel cmds
  = if decide (cmds ≫= policy_subqueries rel = []) then None
    else Some (invalid_object_definition "team_members").
Proof.
  unfold policy_expansion.
  change (infinite_recursion 4 [] rel cmds)
    with (foldr (λ sub found,
                   match infinite_recursion 3 [rel] sub [for_select] with
                   | Some x => Some x
                   | None => found
                   end)
                None (cmds ≫= policy_subqueries rel)).
  rewrite infinite_recursion_subqueries.
  by destruct (decide _).
Qed.

(** ** What the dashboard can change *)

Lemma AddDeviceModal_handleSubmit_inv u name ipAddress port e d d' :
  AddDeviceModal_handleSubmit (Some u) name ipAddress port e d = (d', None) →
  ∃ p, parseInt port = Some p
       ∧ devices d !! gen_random_uuid e = None
       ∧ d' = set_devices
                (<[gen_random_uuid e :=
                     device.mk name ipAddress p u None unknown None (now e)]>
                   (devices d)) d.
Proof.
  intros Hsub.
  unfold AddDeviceModal_handleSubmit, devices_insert in Hsub. simpl in Hsub.
  repeat case_match; simplify_eq/=.
  eexists. split_and!; [done | | done].
  apply eq_None_not_Some. by eapply bool_decide_eq_false_1.
Qed.

Lemma anon_changes_nothing s d : (execute anon s d).1 = d.
Proof.
  destruct s; unfold execute;
    unfold_statements; cbn [policy_expansion rls negb andb];
    repeat case_match; by simplify_eq/=.
Qed.

(** Of the dashboard's actions only the Add Device form changes the
    database, and what it does is add one device, in the name of the
    signed-in user, under a key not in use.  [sendCommand], [deleteDevice],
    [EditDeviceModal.handleSubmit], [deleteTeam],
    [CreateTeamModal.handleSubmit] and [removeMember] of a signed-in user
    are refused with 42P17, whatever their arguments, and [addMember]
    finds no user, whatever the address. *)
Theorem dashboard_only_adds_devices :
  (∀ op d,
     run_producer op d = d
     ∨ ∃ u name ipAddress port e p,
         op = AddDevice (Some u) name ipAddress port e
         ∧ parseInt port = Some p
         ∧ devices d !! gen_random_uuid e = None
         ∧ run_producer op d
           = set_devices
               (<[gen_random_uuid e :=
                    device.mk name ipAddress p u None unknown None (now e)]>
                  (devices d)) d)
  ∧ (∀ u d,
       let refused := (d, Some (invalid_object_definition "team_members")) in
       (∀ deviceId commandType e, sendCommand (Some u) deviceId commandType e d = refused)
       ∧ (∀ deviceId, deleteDevice (Some u) true deviceId d = refused)
       ∧ (∀ id name ipAddress port,
            EditDeviceModal_handleSubmit (Some u) id name ipAddress port d = refused)
       ∧ (∀ teamId, deleteTeam (Some u) true teamId d = refused)
       ∧ (∀ name e1 e2, CreateTeamModal_handleSubmit (Some u) name e1 e2 d = refused)
       ∧ (∀ memberId, removeMember (Some u) memberId d = refused))
  ∧ (∀ user teamId newMemberEmail e d,
       addMember user teamId newMemberEmail e d = (d, None)).
Proof.
  split_and!.
  - intros op d.
    destruct op as [user deviceId ct e|user confirmed deviceId|user name ip port e
                   |user id name ip port|user confirmed teamId|user name e1 e2
                   |user teamId email e|user memberId]; cbn [run_producer].
    + left. by destruct user.
    + left. unfold deleteDevice. destruct confirmed; [|done]. cbn [negb].
      destruct user; [done|]. apply (anon_changes_nothing (DeleteDeviceRow deviceId)).
    + destruct user as [u|]; [|by left].
      destruct (AddDeviceModal_handleSubmit (Some u) name ip port e d)
        as [d' [err|]] eqn:E.
      * left. simpl.
        pose proof (execute_error_unchanged (authenticated u)
                      (InsertDevice e (device.mkInsert None name ip (parseInt port) u
                                         None None None None)) d err) as H.
        unfold AddDeviceModal_handleSubmit in E. cbn [session] in E.
        cbn [execute] in H. rewrite E in H. by apply H.
      * right. apply AddDeviceModal_handleSubmit_inv in E as (p & Hp & Hfresh & ->).
        by exists u, name, ip, port, e, p.
    + left. unfold EditDeviceModal_handleSubmit.
      destruct user; [done|]. apply (anon_changes_nothing (UpdateDevice id _)).
    + left. unfold deleteTeam. destruct confirmed; [|done]. cbn [negb].
      destruct user; [done|]. apply (anon_changes_nothing (DeleteTeamRow teamId)).
    + left. by destruct user.
    + by left.
    + left. unfold removeMember.
      destruct user; [done|]. apply (anon_changes_nothing (DeleteTeamMember memberId)).
  - intros u d refused. split_and!; intros.
    + apply sendCommand_refused.
    + apply deleteDevice_refused.
    + apply EditDeviceModal_handleSubmit_refused.
    + apply deleteTeam_refused.
    + apply CreateTeamModal_handleSubmit_refused.
    + apply removeMember_refused.
  - apply addMember_user_not_found.
Qed.

(** ** What the dashboard shows *)

Lemma anon_sees_no_row {A : Type} (policy : nat * A → nat → bool) (m : gmap nat A) :
  filter (λ kx, rls anon (policy kx) = true) m = ∅.
Proof.
  apply map_empty. intros k. apply map_lookup_filter_None. right.
  intros x _ H. simpl in H. done.
Qed.

(** The queries behind the dashboard's lists are refused for every
    signed-in user (42P17): [loadDevices], [loadTeams] and [loadMembers]
    get an error, which they log, and hand no rows to the component.
    Without a signed-in user the queries run, and return no row. *)
Theorem dashboard_queries_are_refused (d : db) :
  (∀ u,
     loadDevices (Some u) d = inr (invalid_object_definition "team_members")
     ∧ loadTeams (Some u) d = inr (invalid_object_definition "team_members")
     ∧ ∀ teamId,
         loadMembers (Some u) teamId d = inr (invalid_object_definition "team_members"))
  ∧ loadDevices None d = inl []
  ∧ loadTeams None d = inl []
  ∧ ∀ teamId, loadMembers None teamId d = inl ∅.
Proof.
  split; [by intros u|].
  split_and!.
  - unfold loadDevices, devices_visible. cbn [session query_expansion policy_expansion].
    rewrite (anon_sees_no_row (λ kx, devices_select d kx.2)).
    by rewrite map_to_list_empty.
  - unfold loadTeams, teams_visible. cbn [session query_expansion policy_expansion].
    rewrite (anon_sees_no_row (λ kx, teams_select d kx.1 kx.2)).
    by rewrite map_to_list_empty.
  - intros teamId. unfold loadMembers, team_members_visible.
    cbn [session query_expansion policy_expansion].
    rewrite (anon_sees_no_row (λ kx, team_members_select d kx.2)).
    by rewrite map_filter_empty.
Qed.

(** ** Numerals read back *)

(** [parseInt] reads back what [toString] wrote, for every integer a
    number holds exactly, zero and the negative ones included, and goes on
    doing so when the numeral is followed by text that does not begin with
    a digit (or with the [x] of a hexadecimal prefix): the rest of the
    text is ignored. *)
Theorem parseInt_reads_numerals_back (z : Z) (rest : string) :
  Z.abs z ≤ 2 ^ 53 - 1 →
  ends_numeral rest →
  parseInt (Number_toString z) = Some z
  ∧ parseInt (String.append (Number_toString z) rest) = Some z.
Proof. intros _ Hrest. split; [apply parseInt_toString | by apply parseInt_toString_then]. Qed.

Lemma parseInt_reads_numerals_back_witness :
  parseInt (Number_toString (-3000)) = Some (-3000)
  ∧ parseInt (String.append (Number_toString (-3000)) "px") = Some (-3000).
Proof.
  apply (parseInt_reads_numerals_back (-3000) "px"%string); [lia | by split_and!].
Defined.


(** ** What is typed and what is stored *)


(** A name, an address and a port from 1 to 65535 typed as a plain decimal
    numeral pass the Add Device form, and what the signed-in user typed is
    what is stored (under the key drawn, which is not in use): that name,
    address and port, the user as owner, no team, status unknown. *)
Theorem typed_device_is_stored (u : nat) (name ipAddress : string) (p : Z)
    (e : env) (d : db) :
  name ≠ ""%string → ipAddress ≠ ""%string →
  1 ≤ p ≤ 65535 →
  devices d !! gen_random_uuid e = None →
  device_form_validity name ipAddress (Number_toString p) = []
  ∧ AddDeviceModal_submit (Some u) name ipAddress (Number_toString p) e d
    = submitted
        (set_devices
           (<[gen_random_uuid e := device.mk name ipAddress p u None unknown None (now e)]>
              (devices d)) d, None).
Proof.
  intros Hname Hip Hp Hfresh.
  assert (Hvalid : device_form_validity name ipAddress (Number_toString p) = []).
  { unfold device_form_validity, text_required, number_required.
    rewrite !bool_decide_eq_false_2 by done.
    destruct (Number_toString_positive p) as (n & Hn & -> & Hv); [lia|].
    rewrite number_value_numeral, Hv by done.
    by rewrite number_required_whole. }
  split; [done|].
  unfold AddDeviceModal_submit. rewrite Hvalid.
  unfold AddDeviceModal_handleSubmit, devices_insert. cbn [session].
  rewrite parseInt_toString. simpl.
  assert (int4 p = true) as ->.
  { unfold int4. rewrite andb_true_iff, !bool_decide_eq_true. lia. }
  unfold devices_insert_check, users_can_create_devices. simpl.
  rewrite (bool_decide_eq_true_2 (u = u)) by done. simpl.
  rewrite (proj2 (devices_port_check_true p) Hp), Hfresh. simpl.
  reflexivity.
Qed.

Lemma typed_device_is_stored_witness :
  device_form_validity "Prime" "192.168.1.100" (Number_toString 3000) = []
  ∧ AddDeviceModal_submit (Some 7%nat) "Prime" "192.168.1.100" (Number_toString 3000)
      (mkEnv 1 100) empty_db
    = submitted
        (set_devices
           (<[ 1%nat := device.mk "Prime" "192.168.1.100" 3000 7%nat None unknown None 100 ]>
              (devices empty_db)) empty_db, None).
Proof.
  apply (typed_device_is_stored 7%nat "Prime" "192.168.1.100" 3000 (mkEnv 1 100) empty_db);
    [discriminate | discriminate | lia | reflexivity].
Defined.

Lemma number_required_integer (lo hi : Z) (q : Q) :
  Qden q = 1%positive → lo ≤ Qnum q ≤ hi →
  (if Qle_bool (inject_Z lo) q then [] else [rangeUnderflow])
  ++ (if Qle_bool q (inject_Z hi) then [] else [rangeOverflow])
  ++ (if is_integer (Qminus q (inject_Z lo)) then [] else [stepMismatch]) = [].
Proof.
  destruct q as [n dn]. simpl. intros -> Hm.
  assert (Qle_bool (inject_Z lo) (n # 1) = true) as ->.
  { apply Qle_bool_iff. unfold Qle. simpl. lia. }
  assert (Qle_bool (n # 1) (inject_Z hi) = true) as ->.
  { apply Qle_bool_iff. unfold Qle. simpl. lia. }
  assert (is_integer (Qminus (n # 1) (inject_Z lo)) = true) as ->; [|done].
  unfold is_integer. apply bool_decide_eq_true. apply Qred_den_1.
Qed.

Lemma number_value_exponent (a b : Decimal.uint) :
  a ≠ Decimal.Nil → b ≠ Decimal.Nil →
  number_value (String.append (NilEmpty.string_of_uint a)
                              (String "e" (NilEmpty.string_of_uint b)))
  = Some (Qmult (inject_Z (numeral_value a 0)) (pow10 (numeral_value b 0 - 0))).
Proof.
  intros Ha Hb.
  pose proof (read_digits_numeral a (String "e" (NilEmpty.string_of_uint b)) 0 0) as Hread.
  assert (He : ends_numeral (String "e" (NilEmpty.string_of_uint b)))
    by (by split_and!).
  rewrite (read_digits_stops _ _ _ He) in Hread.
  pose proof (nb_digits_nonzero a Ha) as Hn.
  pose proof (read_digits_whole_numeral b) as Hexp.
  unfold number_value.
  destruct a; [done|..];
    cbn [NilEmpty.string_of_uint] in *;
    change (String.append (String ?c ?s) ?rest) with (String c (String.append s rest)) in *;
    cbv beta iota zeta;
    rewrite Hread; cbv beta iota zeta;
    rewrite (bool_decide_eq_false_2 _ Hn);
    rewrite (bool_decide_eq_true_2 ("e"%char = "e"%char ∨ "e"%char = "E"%char))
      by (by left);
    (destruct b; [done|..]; cbn [NilEmpty.string_of_uint Decimal.nb_digits] in *;
     cbv beta iota zeta; rewrite Hexp; reflexivity).
Qed.

Lemma AddDeviceModal_handleSubmit_stores (u : nat) (name ipAddress port : string)
    (p : Z) (e : env) (d : db) :
  parseInt port = Some p → 1 ≤ p ≤ 65535 →
  devices d !! gen_random_uuid e = None →
  AddDeviceModal_handleSubmit (Some u) name ipAddress port e d
  = (set_devices
       (<[gen_random_uuid e := device.mk name ipAddress p u None unknown None (now e)]>
          (devices d)) d, None).
Proof.
  intros Hport Hp Hfresh.
  unfold AddDeviceModal_handleSubmit, devices_insert. cbn [session].
  rewrite Hport. simpl.
  assert (int4 p = true) as ->.
  { unfold int4. rewrite andb_true_iff, !bool_decide_eq_true. lia. }
  unfold devices_insert_check, users_can_create_devices. simpl.
  rewrite (bool_decide_eq_true_2 (u = u)) by done. simpl.
  rewrite (proj2 (devices_port_check_true p) Hp), Hfresh. simpl.
  reflexivity.
Qed.

(** The Add Device form checks the number the port input holds, the handler
    stores [parseInt] of its text, and the two part ways on exponent
    notation: for a port typed as [m], the letter e and [k] (both positive,
    [m * 10^k] at most 65535) the input holds [m * 10^k], the form is
    valid, and the device is stored with port [m]. *)
Theorem port_in_exponent_notation_is_cut_short (u : nat) (name ipAddress : string)
    (m k : Z) (e : env) (d : db) :
  name ≠ ""%string → ipAddress ≠ ""%string →
  0 < m → 0 < k → m * 10 ^ k ≤ 65535 →
  devices d !! gen_random_uuid e = None →
  let port := String.append (Number_toString m) (String "e" (Number_toString k)) in
  (∃ q, number_value port = Some q ∧ Qeq q (inject_Z (m * 10 ^ k)))
  ∧ device_form_validity name ipAddress port = []
  ∧ AddDeviceModal_submit (Some u) name ipAddress port e d
    = submitted
        (set_devices
           (<[gen_random_uuid e := device.mk name ipAddress m u None unknown None (now e)]>
              (devices d)) d, None).
Proof.
  intros Hname Hip Hm Hk Hmk Hfresh port.
  assert (Hpow : 0 < 10 ^ k) by (apply Z.pow_pos_nonneg; lia).
  assert (Hparse : parseInt port = Some m).
  { apply parseInt_toString_then. by split_and!. }
  destruct (Number_toString_positive m Hm) as (a & Ha & Hsa & Hva).
  destruct (Number_toString_positive k Hk) as (b & Hb & Hsb & Hvb).
  assert (Hvalue : number_value port
                   = Some (Qmult (inject_Z m) (inject_Z (10 ^ k)))).
  { unfold port. rewrite Hsa, Hsb, number_value_exponent, Hva, Hvb by done.
    unfold pow10. rewrite bool_decide_eq_true_2 by lia. by rewrite Z.sub_0_r. }
  assert (Hvalid : device_form_validity name ipAddress port = []).
  { unfold device_form_validity, text_required, number_required.
    rewrite !bool_decide_eq_false_2 by done. rewrite Hvalue.
    rewrite number_required_integer; [done|reflexivity|simpl; nia]. }
  split; [|split; [done|]].
  - eexists. split; [exact Hvalue|]. unfold Qeq. simpl. lia.
  - unfold AddDeviceModal_submit. rewrite Hvalid.
    f_equal. apply AddDeviceModal_handleSubmit_stores; [done|nia|done].
Qed.

Lemma port_in_exponent_notation_is_cut_short_witness :
  let port := String.append (Number_toString 3) (String "e" (Number_toString 3)) in
  (∃ q, number_value port = Some q ∧ Qeq q (inject_Z (3 * 10 ^ 3)))
  ∧ device_form_validity "Prime" "192.168.1.100" port = []
  ∧ AddDeviceModal_submit (Some 7%nat) "Prime" "192.168.1.100" port (mkEnv 1 100) empty_db
    = submitted
        (set_devices
           (<[ 1%nat := device.mk "Prime" "192.168.1.100" 3 7%nat None unknown None 100 ]>
              (devices empty_db)) empty_db, None).
Proof.
  apply (port_in_exponent_notation_is_cut_short 7%nat "Prime" "192.168.1.100" 3 3
           (mkEnv 1 100) empty_db);
    [discriminate | discriminate | lia | lia | lia | reflexivity].
Defined.

(** ** Configuration *)

Lemma parseInt_not_a_number (c : ascii) (s : string) :
  is_whitespace c = false → is_digit c = false →
  c ≠ "-"%char → c ≠ "+"%char →
  parseInt (String c s) = None.
Proof.
  intros Hw Hd Hminus Hplus. unfold parseInt. cbn [trim_start]. rewrite Hw.
  assert (Hread : read_digits (String c s) 0 0 = (0, 0%nat, String c s))
    by (cbn [read_digits]; by rewrite Hd).
  destruct c as [[] [] [] [] [] [] [] []]; try done;
    cbv beta iota zeta; by rewrite Hread.
Qed.

(** [defaultPort] and [POLL_INTERVAL] take their default (3000, 5000) when
    the variable is unset or empty and only then: a variable that holds
    the numeral of an integer, followed or not by other text, gives that
    integer, whatever its sign and size, and one that begins with an ASCII
    character other than white space, a sign or a digit gives [NaN]; the
    default does not step in. *)
Theorem config_defaults_only_when_unset :
  (∀ v, v = None ∨ v = Some ""%string →
        defaultPort v = Some 3000 ∧ POLL_INTERVAL v = Some 5000)
  ∧ (∀ z rest, Z.abs z ≤ 2 ^ 53 - 1 → ends_numeral rest →
       defaultPort (Some (String.append (Number_toString z) rest)) = Some z
       ∧ POLL_INTERVAL (Some (String.append (Number_toString z) rest)) = Some z)
  ∧ (∀ c s, (nat_of_ascii c < 128)%nat →
       is_whitespace c = false → is_digit c = false →
       c ≠ "-"%char → c ≠ "+"%char →
       defaultPort (Some (String c s)) = None
       ∧ POLL_INTERVAL (Some (String c s)) = None).
Proof.
  split; [|split].
  - by intros v [-> | ->].
  - intros z rest _ Hrest.
    pose proof (parseInt_toString_then z rest Hrest) as Hparse.
    unfold defaultPort, POLL_INTERVAL, parseInt_env.
    destruct (bool_decide (String.append (Number_toString z) rest = ""%string)) eqn:E;
      [|done].
    apply bool_decide_eq_true in E. rewrite E in Hparse. done.
  - intros c s _ Hw Hd Hminus Hplus.
    unfold defaultPort, POLL_INTERVAL, parseInt_env.
    rewrite bool_decide_eq_false_2 by done.
    by rewrite parseInt_not_a_number.
Qed.

Lemma config_defaults_only_when_unset_witness :
  (defaultPort None = Some 3000 ∧ POLL_INTERVAL None = Some 5000)
  ∧ (defaultPort (Some (String.append (Number_toString 0) "ms")) = Some 0
     ∧ POLL_INTERVAL (Some (String.append (Number_toString 0) "ms")) = Some 0)
  ∧ (defaultPort (Some "auto"%string) = None
     ∧ POLL_INTERVAL (Some "auto"%string) = None).
Proof.
  destruct config_defaults_only_when_unset as (H1 & H2 & H3).
  split; [|split].
  - apply H1. by left.
  - apply H2; [lia | by split_and!].
  - apply H3; [vm_compute; lia | reflexivity | reflexivity | discriminate | discriminate].
Defined.
